(** * JWT authentication and scope authorization of go-apiTemplate

    Shallow embedding of [internal/auth/auth.go] (package [auth]): the
    authenticator, token issuance and verification, bearer extraction, the
    scope gate and the two request middlewares, together with the context
    accessors.

    The package calls three collaborators that are not part of the
    repository: the Go standard library ([strings], [time], [context],
    [net/http], [encoding/json], [encoding/base64], [crypto/...]) and
    [github.com/golang-jwt/jwt/v5].  What the package uses of them is
    modelled here as well, each in a module of its own:
    - [gostrings], [time], [context], [http]: executable definitions;
    - [json.coerce]: the only lossy step of [json.Marshal] on strings;
    - [jwt]: the control flow of [NewWithClaims], [SignedString],
      [ParseWithClaims] and [Validator.Validate];
    - the byte level encodings and the cryptographic primitives are an
      interface ([Encoding], [Crypto]) with the laws the callers rely on,
      and one executable instance of it.

    Conventions.  A Go [string] is a byte string and is a Rocq [string].
    A slice is a list (a nil slice and an empty slice are both [[]]: the
    code only ranges over slices and takes their length).  An instant is a
    number of nanoseconds since the Unix epoch, a [time.Duration] a number
    of nanoseconds.  A Go function returning [(T, error)] returns
    [result T]; a computation that can panic on a nil key returns
    [option], with [None] for the panic.  Calls to the logger are not
    modelled: they have no effect on requests, responses or tokens. *)

From stdpp Require Import base option list strings countable gmap.
From Stdlib Require Import ZArith Ascii String Lia.

Local Open Scope string_scope.
Local Open Scope Z_scope.

(** ** Results and panics *)

(** The sentinel errors declared by the package. *)
Inductive error :=
  | ErrInvalidToken
  | ErrExpiredToken
  | ErrInsufficientScope
  | ErrMissingToken
  | ErrAuthorizationPending
  | ErrUnsupportedSigningMethod   (* fmt.Errorf("unsupported signing method: %v") *)
  | ErrFailedToSign.              (* fmt.Errorf("failed to sign token: %w")       *)

#[global] Instance error_eq_dec : EqDecision error.
Proof. solve_decision. Defined.

Inductive result (A : Type) :=
  | Ok (a : A)
  | Err (e : error).
Arguments Ok {A} a.
Arguments Err {A} e.

(** ** strings *)

Module gostrings.

(** [strings.Split(s, sep)] for a separator of one byte, the only use
    in the package (a space) and in the token parser (a dot): the
    pieces of [s] between the occurrences of [sep], in order; one more
    piece than there are separators. *)
Fixpoint Split (s : string) (sep : ascii) : list string :=
  match s with
  | EmptyString => [EmptyString]
  | String c rest =>
      if Ascii.eqb c sep then EmptyString :: Split rest sep
      else match Split rest sep with
           | piece :: pieces => String c piece :: pieces
           | [] => [String c EmptyString]
           end
  end.

(** [strings.Join(elems, sep)] for a separator of one byte. *)
Fixpoint Join (elems : list string) (sep : ascii) : string :=
  match elems with
  | [] => EmptyString
  | [e] => e
  | e :: rest => e ++ String sep (Join rest sep)
  end.

(** [strings.ContainsRune] restricted to bytes. *)
Fixpoint Contains (s : string) (c : ascii) : bool :=
  match s with
  | EmptyString => false
  | String d rest => Ascii.eqb d c || Contains rest c
  end.

End gostrings.

(** ** encoding/json: coercion of strings to valid UTF-8 *)

Module json.

Definition byte (n : N) : ascii := ascii_of_N n.

Definition between (lo hi : N) (c : ascii) : bool :=
  ((lo <=? N_of_ascii c) && (N_of_ascii c <=? hi))%N.

(** U+FFFD, as UTF-8. *)
Definition RuneError : string :=
  String (byte 239) (String (byte 191) (String (byte 189) EmptyString)).

(** For a leading byte of a multi-byte sequence: the length of the
    sequence and the range accepted for the second byte (the table of
    [unicode/utf8]: no overlong forms, no surrogates, nothing above
    U+10FFFF). *)
Definition lead (b0 : ascii) : option (nat * N * N) :=
  let n := N_of_ascii b0 in
  if ((194 <=? n) && (n <=? 223))%N then Some (2%nat, 128, 191)%N
  else if (n =? 224)%N then Some (3%nat, 160, 191)%N
  else if ((225 <=? n) && (n <=? 236))%N then Some (3%nat, 128, 191)%N
  else if (n =? 237)%N then Some (3%nat, 128, 159)%N
  else if ((238 <=? n) && (n <=? 239))%N then Some (3%nat, 128, 191)%N
  else if (n =? 240)%N then Some (4%nat, 144, 191)%N
  else if ((241 <=? n) && (n <=? 243))%N then Some (4%nat, 128, 191)%N
  else if (n =? 244)%N then Some (4%nat, 128, 143)%N
  else None.

Definition cont (c : ascii) : bool := between 128 191 c.

(** What a string becomes when it is written by [json.Marshal] and
    read back by [json.Unmarshal]: the encoder walks the string rune by
    rune and writes the escape of U+FFFD for every byte that does not start a valid
    UTF-8 sequence; everything else is escaped and unescaped without
    loss. *)
Fixpoint coerce (s : string) : string :=
  match s with
  | EmptyString => EmptyString
  | String b0 r0 =>
      let bad := RuneError ++ coerce r0 in
      if (N_of_ascii b0 <? 128)%N then String b0 (coerce r0)
      else
        match lead b0 with
        | None => bad
        | Some (size, lo, hi) =>
            match r0 with
            | String b1 r1 =>
                if negb (between lo hi b1) then bad
                else if (size =? 2)%nat then String b0 (String b1 (coerce r1))
                else
                  match r1 with
                  | String b2 r2 =>
                      if negb (cont b2) then bad
                      else if (size =? 3)%nat
                      then String b0 (String b1 (String b2 (coerce r2)))
                      else
                        match r2 with
                        | String b3 r3 =>
                            if negb (cont b3) then bad
                            else String b0 (String b1 (String b2
                                   (String b3 (coerce r3))))
                        | EmptyString => bad
                        end
                  | EmptyString => bad
                  end
            | EmptyString => bad
            end
        end
  end.

(** [utf8.ValidString]: the strings the encoder leaves alone. *)
Definition Valid (s : string) : Prop := coerce s = s.

#[global] Instance Valid_dec s : Decision (Valid s).
Proof. unfold Valid. apply _. Defined.

End json.

(** ** time *)

Module time.

(** Nanoseconds since the Unix epoch. *)
Definition Time := Z.
(** Nanoseconds. *)
Definition Duration := Z.

Definition Nanosecond : Duration := 1.
Definition Second : Duration := 1000000000.
Definition Hour : Duration := 3600 * Second.

Definition Add (t : Time) (d : Duration) : Time := t + d.
Definition Before (t u : Time) : bool := t <? u.
Definition After (t u : Time) : bool := u <? t.

(** [t.Truncate(d)]: [t] rounded down to a multiple of [d]; [t] itself
    when [d <= 0]. *)
Definition Truncate (t : Time) (d : Duration) : Time :=
  if d <=? 0 then t else t - t mod d.

End time.


(** ** crypto, encoding/base64 and encoding/json: the interface *)

Module crypto.

Inductive Hash := SHA256 | SHA384 | SHA512.

#[global] Instance Hash_eq_dec : EqDecision Hash.
Proof. solve_decision. Defined.

End crypto.

(** [crypto/hmac] and [crypto/rsa], as the token library calls them.
    Both signature schemes are deterministic.  The only law is the
    correctness of RSA signatures; an HMAC is verified by computing it
    again.  The three hashes are those linked into every binary that
    serves HTTP, so [Hash.Available] is not modelled. *)
Class Crypto := {
  (** [rsa.PrivateKey] and [rsa.PublicKey] *)
  rsa_PrivateKey : Type;
  rsa_PublicKey : Type;
  (** [priv.PublicKey] *)
  rsa_Public : rsa_PrivateKey -> rsa_PublicKey;
  (** [h := hmac.New(hash.New, key); h.Write(msg); h.Sum(nil)] *)
  hmac_Sum : crypto.Hash -> string -> string -> string;
  (** [rsa.SignPKCS1v15(rand.Reader, priv, hash, digest(msg))];
      [None] is its error (a modulus too short for the digest). *)
  rsa_SignPKCS1v15 : rsa_PrivateKey -> crypto.Hash -> string -> option string;
  (** [rsa.VerifyPKCS1v15(pub, hash, digest(msg), sig) == nil] *)
  rsa_VerifyPKCS1v15 : rsa_PublicKey -> crypto.Hash -> string -> string -> bool;
  (** The same with [rsa.SignPSS] and [rsa.VerifyPSS] (the salt is not
      modelled: the package never signs with these methods). *)
  rsa_SignPSS : rsa_PrivateKey -> crypto.Hash -> string -> option string;
  rsa_VerifyPSS : rsa_PublicKey -> crypto.Hash -> string -> string -> bool;
  rsa_Verify_Sign : forall priv h msg sig,
    rsa_SignPKCS1v15 priv h msg = Some sig ->
    rsa_VerifyPKCS1v15 (rsa_Public priv) h msg sig = true
}.

(** The alphabet of [base64.RawURLEncoding]. *)
Definition urlAlphabet : string :=
  "ABCDEFGHIJKLMNOPQRSTUVWXYZabcdefghijklmnopqrstuvwxyz0123456789-_".

Fixpoint allIn (alphabet s : string) : bool :=
  match s with
  | EmptyString => true
  | String c rest => gostrings.Contains alphabet c && allIn alphabet rest
  end.

(** [base64.RawURLEncoding]: [EncodeToString] and [DecodeString]
    ([None] is the error of the latter). *)
Class Base64 := {
  EncodeSegment : string -> string;
  DecodeSegment : string -> option string;
  DecodeSegment_EncodeSegment : forall s, DecodeSegment (EncodeSegment s) = Some s;
  EncodeSegment_alphabet : forall s, allIn urlAlphabet (EncodeSegment s) = true
}.

(** [json.Marshal] and [json.Unmarshal] at the type [C] ([None] is the
    error of the latter).  Reading back what was written gives [norm c]:
    the value with the losses of the encoding applied, which for every
    type below means [json.coerce] on its strings. *)
Class JSON (C : Type) (norm : C -> C) := {
  Marshal : C -> string;
  Unmarshal : string -> option C;
  Unmarshal_Marshal : forall c, Unmarshal (Marshal c) = Some (norm c)
}.
Arguments Marshal {C norm _} c.
Arguments Unmarshal {C norm _} s.

(** ** github.com/golang-jwt/jwt/v5 *)

Module jwt.

(** [jwt.TimePrecision], at its default. *)
Definition TimePrecision : time.Duration := time.Second.

Record NumericDate := { Time : time.Time }.

#[global] Instance NumericDate_eq_dec : EqDecision NumericDate.
Proof. solve_decision. Defined.

Definition NewNumericDate (t : time.Time) : NumericDate :=
  {| Time := time.Truncate t TimePrecision |}.

Record RegisteredClaims := {
  Issuer : string;
  Subject : string;
  Audience : list string;
  ExpiresAt : option NumericDate;
  NotBefore : option NumericDate;
  IssuedAt : option NumericDate;
  ID : string
}.

#[global] Instance RegisteredClaims_eq_dec : EqDecision RegisteredClaims.
Proof. solve_decision. Defined.

(** The interface [jwt.Claims], as far as the default validator reads it
    (the getters of [RegisteredClaims] never fail). *)
Class Claims (C : Type) := {
  GetExpirationTime : C -> option NumericDate;
  GetNotBefore : C -> option NumericDate;
  GetIssuedAt : C -> option NumericDate
}.

(** The registered signing methods.  [SigningMethodOther] stands for the
    elliptic curve, Ed25519 and [none] methods, which accept none of the
    keys of this model. *)
Inductive SigningMethod :=
  | SigningMethodHMAC (h : crypto.Hash)
  | SigningMethodRSA (h : crypto.Hash)
  | SigningMethodRSAPSS (h : crypto.Hash)
  | SigningMethodOther (name : string).

#[global] Instance SigningMethod_eq_dec : EqDecision SigningMethod.
Proof. solve_decision. Defined.

Definition SigningMethodHS256 := SigningMethodHMAC crypto.SHA256.
Definition SigningMethodHS384 := SigningMethodHMAC crypto.SHA384.
Definition SigningMethodHS512 := SigningMethodHMAC crypto.SHA512.
Definition SigningMethodRS256 := SigningMethodRSA crypto.SHA256.
Definition SigningMethodRS384 := SigningMethodRSA crypto.SHA384.
Definition SigningMethodRS512 := SigningMethodRSA crypto.SHA512.

Definition bits (h : crypto.Hash) : string :=
  match h with
  | crypto.SHA256 => "256"
  | crypto.SHA384 => "384"
  | crypto.SHA512 => "512"
  end.

Definition Alg (m : SigningMethod) : string :=
  match m with
  | SigningMethodHMAC h => "HS" ++ bits h
  | SigningMethodRSA h => "RS" ++ bits h
  | SigningMethodRSAPSS h => "PS" ++ bits h
  | SigningMethodOther name => name
  end.

Definition registered : list SigningMethod :=
  [ SigningMethodHS256; SigningMethodHS384; SigningMethodHS512;
    SigningMethodRS256; SigningMethodRS384; SigningMethodRS512;
    SigningMethodRSAPSS crypto.SHA256; SigningMethodRSAPSS crypto.SHA384;
    SigningMethodRSAPSS crypto.SHA512;
    SigningMethodOther "ES256"; SigningMethodOther "ES384";
    SigningMethodOther "ES512"; SigningMethodOther "EdDSA";
    SigningMethodOther "none" ].

(** [jwt.GetSigningMethod(alg)]; [None] is the nil method. *)
Definition GetSigningMethod (alg : string) : option SigningMethod :=
  List.find (fun m => bool_decide (Alg m = alg)) registered.

(** The sentinel errors of the library that can occur here.  An error
    value is the list of the sentinels it wraps or joins, so that
    [errors.Is(err, target)] is membership. *)
Inductive Error :=
  | ErrTokenMalformed
  | ErrTokenUnverifiable
  | ErrTokenSignatureInvalid
  | ErrTokenInvalidClaims
  | ErrTokenExpired
  | ErrTokenNotValidYet
  | ErrInvalidKeyType
  | ErrSignatureInvalid
  | ErrCryptoRSA.

#[global] Instance Error_eq_dec : EqDecision Error.
Proof. solve_decision. Defined.

Definition errors_Is (err : list Error) (target : Error) : bool :=
  bool_decide (target ∈ err).

Inductive res (A : Type) :=
  | ok (a : A)
  | fail (err : list Error).
Arguments ok {A} a.
Arguments fail {A} err.

(** The token header, a JSON object: its [alg] and [typ] entries when
    they are strings. *)
Record Header := { alg : option string; typ : option string }.

#[global] Instance Header_eq_dec : EqDecision Header.
Proof. solve_decision. Defined.

Definition normHeader (h : Header) : Header :=
  {| alg := json.coerce <$> alg h; typ := json.coerce <$> typ h |}.

Record Token (C : Type) := {
  Raw : string;
  Method : SigningMethod;
  TokenHeader : Header;
  TokenClaims : C;
  Signature : string;
  Valid : bool
}.
Arguments Raw {C} t.
Arguments Method {C} t.
Arguments TokenHeader {C} t.
Arguments TokenClaims {C} t.
Arguments Signature {C} t.
Arguments Valid {C} t.

(** [jwt.NewWithClaims(method, claims)] *)
Definition NewWithClaims {C} (method : SigningMethod) (claims : C) : Token C :=
  {| Raw := "";
     Method := method;
     TokenHeader := {| alg := Some (Alg method); typ := Some "JWT" |};
     TokenClaims := claims;
     Signature := "";
     Valid := false |}.

Section Library.
Context `{Crypto} `{Base64}.

(** What a key function or a caller hands over as [interface{}]: a byte
    slice, or a pointer to an RSA key, which may be nil. *)
Inductive Key :=
  | KeyBytes (b : string)
  | KeyRSAPublic (k : option rsa_PublicKey)
  | KeyRSAPrivate (k : option rsa_PrivateKey).

(** [method.Sign(signingString, key)].  [None]: the nil pointer is
    dereferenced inside [crypto/rsa]. *)
Definition Sign (m : SigningMethod) (signingString : string) (key : Key)
  : option (res string) :=
  match m with
  | SigningMethodHMAC h =>
      match key with
      | KeyBytes k => Some (ok (hmac_Sum h k signingString))
      | _ => Some (fail [ErrInvalidKeyType])
      end
  | SigningMethodRSA h =>
      match key with
      | KeyRSAPrivate (Some k) =>
          match rsa_SignPKCS1v15 k h signingString with
          | Some sig => Some (ok sig)
          | None => Some (fail [ErrCryptoRSA])
          end
      | KeyRSAPrivate None => None
      | _ => Some (fail [ErrInvalidKeyType])
      end
  | SigningMethodRSAPSS h =>
      match key with
      | KeyRSAPrivate (Some k) =>
          match rsa_SignPSS k h signingString with
          | Some sig => Some (ok sig)
          | None => Some (fail [ErrCryptoRSA])
          end
      | KeyRSAPrivate None => None
      | _ => Some (fail [ErrInvalidKeyType])
      end
  | SigningMethodOther _ => Some (fail [ErrInvalidKeyType])
  end.

(** [method.Verify(signingString, sig, key)]; [ok tt] is the nil error. *)
Definition Verify (m : SigningMethod) (signingString sig : string) (key : Key)
  : option (res unit) :=
  match m with
  | SigningMethodHMAC h =>
      match key with
      | KeyBytes k =>
          if bool_decide (sig = hmac_Sum h k signingString)
          then Some (ok tt) else Some (fail [ErrSignatureInvalid])
      | _ => Some (fail [ErrInvalidKeyType])
      end
  | SigningMethodRSA h =>
      match key with
      | KeyRSAPublic (Some k) =>
          if rsa_VerifyPKCS1v15 k h signingString sig
          then Some (ok tt) else Some (fail [ErrCryptoRSA])
      | KeyRSAPublic None => None
      | _ => Some (fail [ErrInvalidKeyType])
      end
  | SigningMethodRSAPSS h =>
      match key with
      | KeyRSAPublic (Some k) =>
          if rsa_VerifyPSS k h signingString sig
          then Some (ok tt) else Some (fail [ErrCryptoRSA])
      | KeyRSAPublic None => None
      | _ => Some (fail [ErrInvalidKeyType])
      end
  | SigningMethodOther _ => Some (fail [ErrInvalidKeyType])
  end.

Section WithClaims.
Context {C : Type} `{Claims C} {norm : C -> C} `{!JSON C norm} `{!JSON Header normHeader}.

(** [token.SigningString()] *)
Definition SigningString (t : Token C) : string :=
  EncodeSegment (Marshal (TokenHeader t)) ++ "." ++ EncodeSegment (Marshal (TokenClaims t)).

(** [token.SignedString(key)] *)
Definition SignedString (t : Token C) (key : Key) : option (res string) :=
  let sstr := SigningString t in
  match Sign (Method t) sstr key with
  | None => None
  | Some (fail err) => Some (fail err)
  | Some (ok sig) => Some (ok (sstr ++ "." ++ EncodeSegment sig))
  end.

(** [Validator.Validate(claims)] of the default validator (no leeway, no
    expected audience, issuer or subject, [iat] not verified), at the
    instant [now] read from the clock: the list of the errors found.
    [exp] passes when [now] is before it; [nbf] passes when [now] is not
    before it; an absent claim passes. *)
Definition verifyExpiresAt (claims : C) (cmp : time.Time) : list Error :=
  match GetExpirationTime claims with
  | None => []
  | Some exp => if time.Before cmp (Time exp) then [] else [ErrTokenExpired]
  end.

Definition verifyNotBefore (claims : C) (cmp : time.Time) : list Error :=
  match GetNotBefore claims with
  | None => []
  | Some nbf => if negb (time.Before cmp (Time nbf)) then [] else [ErrTokenNotValidYet]
  end.

Definition Validate (now : time.Time) (claims : C) : list Error :=
  verifyExpiresAt claims now ++ verifyNotBefore claims now.

(** [Parser.ParseUnverified]: the token without its signature checked,
    and the three segments. *)
Definition ParseUnverified (tokenString : string)
  : res (Token C * (string * string * string)) :=
  match gostrings.Split tokenString "." with
  | [p0; p1; p2] =>
      match DecodeSegment p0 ≫= Unmarshal (C:=Header) with
      | None => fail [ErrTokenMalformed]
      | Some header =>
          match DecodeSegment p1 ≫= Unmarshal (C:=C) with
          | None => fail [ErrTokenMalformed]
          | Some claims =>
              match alg header ≫= GetSigningMethod with
              | None => fail [ErrTokenUnverifiable]
              | Some method =>
                  ok ({| Raw := tokenString; Method := method;
                         TokenHeader := header; TokenClaims := claims;
                         Signature := ""; Valid := false |},
                      (p0, p1, p2))
              end
          end
      end
  | _ => fail [ErrTokenMalformed]
  end.

(** [jwt.ParseWithClaims(tokenString, claims, keyFunc)] with the default
    parser.  [keyFunc] returns [None] for an error.  The signature is
    checked before the claims are validated. *)
Definition ParseWithClaims (now : time.Time) (tokenString : string)
    (keyFunc : Token C -> option Key) : option (res (Token C)) :=
  match ParseUnverified tokenString with
  | fail err => Some (fail err)
  | ok (token, (p0, p1, p2)) =>
      match DecodeSegment p2 with
      | None => Some (fail [ErrTokenMalformed])
      | Some sig =>
          let text := p0 ++ "." ++ p1 in
          match keyFunc token with
          | None => Some (fail [ErrTokenUnverifiable])
          | Some key =>
              match Verify (Method token) text sig key with
              | None => None
              | Some (fail err) => Some (fail (ErrTokenSignatureInvalid :: err))
              | Some (ok _) =>
                  match Validate now (TokenClaims token) with
                  | [] =>
                      Some (ok {| Raw := Raw token; Method := Method token;
                                  TokenHeader := TokenHeader token;
                                  TokenClaims := TokenClaims token;
                                  Signature := sig; Valid := true |})
                  | errs => Some (fail (ErrTokenInvalidClaims :: errs))
                  end
              end
          end
      end
  end.

End WithClaims.
End Library.

End jwt.

(** ** context *)

Module context.

(** A context key is compared with [==]: its dynamic type and its value. *)
Record Key := { KeyType : string; KeyName : string }.

#[global] Instance Key_eq_dec : EqDecision Key.
Proof. solve_decision. Defined.

(** A context is the chain of the values attached to it, the latest
    first; [V] is the type of the values ([any]). *)
Definition Context (V : Type) := list (Key * V).

Definition Background {V : Type} : Context V := [].

Definition WithValue {V : Type} (parent : Context V) (key : Key) (val : V) : Context V :=
  (key, val) :: parent.

(** [ctx.Value(key)]; [None] is nil. *)
Fixpoint Value {V : Type} (ctx : Context V) (key : Key) : option V :=
  match ctx with
  | [] => None
  | (k, v) :: parent => if decide (k = key) then Some v else Value parent key
  end.

End context.

(** ** net/http *)

Module http.

Definition StatusOK : Z := 200.
Definition StatusUnauthorized : Z := 401.
Definition StatusForbidden : Z := 403.

(** [http.Header]: canonical keys to their values. *)
Abbreviation Header := (gmap string (list string)).

(** [h.Get(key)] for a key in canonical form. *)
Definition Get (h : Header) (key : string) : string :=
  match h !! key with
  | Some (v :: _) => v
  | _ => ""
  end.

Record Request (V : Type) := {
  ReqMethod : string;
  URL : string;
  ReqHeader : Header;
  ReqBody : string;
  Ctx : context.Context V
}.
Arguments ReqMethod {V} r.
Arguments URL {V} r.
Arguments ReqHeader {V} r.
Arguments ReqBody {V} r.
Arguments Ctx {V} r.

(** [r.WithContext(ctx)]: a shallow copy of [r] with its context changed. *)
Definition WithContext {V} (r : Request V) (ctx : context.Context V) : Request V :=
  {| ReqMethod := ReqMethod r; URL := URL r; ReqHeader := ReqHeader r;
     ReqBody := ReqBody r; Ctx := ctx |}.

(** The state behind an [http.ResponseWriter]: the status once it is
    written, the header map and the body so far. *)
Record ResponseWriter := {
  Code : option Z;
  HeaderMap : Header;
  Body : string
}.

Definition NewRecorder : ResponseWriter :=
  {| Code := None; HeaderMap := ∅; Body := "" |}.

(** [w.WriteHeader(code)]: only the first call counts. *)
Definition WriteHeader (w : ResponseWriter) (code : Z) : ResponseWriter :=
  match Code w with
  | Some _ => w
  | None => {| Code := Some code; HeaderMap := HeaderMap w; Body := Body w |}
  end.

(** [w.Write(data)]: the status is 200 when none was written. *)
Definition Write (w : ResponseWriter) (data : string) : ResponseWriter :=
  let w := WriteHeader w StatusOK in
  {| Code := Code w; HeaderMap := HeaderMap w; Body := Body w ++ data |}.

Definition newline : string := String (ascii_of_N 10) EmptyString.

(** [http.Error(w, error, code)]: plain text headers, the status, and the
    message followed by a newline ([fmt.Fprintln]). *)
Definition Error (w : ResponseWriter) (error : string) (code : Z) : ResponseWriter :=
  let h := delete "Content-Length" (HeaderMap w) in
  let h := <["Content-Type" := ["text/plain; charset=utf-8"]]> h in
  let h := <["X-Content-Type-Options" := ["nosniff"]]> h in
  let w := {| Code := Code w; HeaderMap := h; Body := Body w |} in
  Write (WriteHeader w code) (error ++ newline).

(** [http.Handler]: [ServeHTTP(w, r)] as a function of the writer's
    state; [None] when the handler panics. *)
Definition Handler (V : Type) := ResponseWriter -> Request V -> option ResponseWriter.

End http.

(** ** golang.org/x/oauth2: the configuration record *)

Module oauth2.

Record Endpoint := { AuthURL : string; TokenURL : string }.

Record Config := {
  ClientID : string;
  ClientSecret : string;
  RedirectURL : string;
  ConfigEndpoint : Endpoint;
  ConfigScopes : list string
}.

End oauth2.

(** * Package auth *)

(** [Claims]: the registered claims and the three of the package. *)
Record Claims := {
  RegisteredClaims : jwt.RegisteredClaims;
  UserID : string;
  Roles : list string;
  Scopes : list string
}.

#[global] Instance Claims_eq_dec : EqDecision Claims.
Proof. solve_decision. Defined.

(** [Claims] embeds [jwt.RegisteredClaims] and so implements [jwt.Claims]
    with its getters. *)
#[global] Instance Claims_jwt_Claims : jwt.Claims Claims := {|
  jwt.GetExpirationTime c := jwt.ExpiresAt (RegisteredClaims c);
  jwt.GetNotBefore c := jwt.NotBefore (RegisteredClaims c);
  jwt.GetIssuedAt c := jwt.IssuedAt (RegisteredClaims c)
|}.

(** What [Claims] become when they are written as JSON and read back:
    every string coerced to valid UTF-8, every date truncated to
    [jwt.TimePrecision] ([NumericDate.MarshalJSON]). *)
Definition normNumericDate (d : jwt.NumericDate) : jwt.NumericDate :=
  jwt.NewNumericDate (jwt.Time d).

Definition normRegisteredClaims (rc : jwt.RegisteredClaims) : jwt.RegisteredClaims :=
  {| jwt.Issuer := json.coerce (jwt.Issuer rc);
     jwt.Subject := json.coerce (jwt.Subject rc);
     jwt.Audience := json.coerce <$> jwt.Audience rc;
     jwt.ExpiresAt := normNumericDate <$> jwt.ExpiresAt rc;
     jwt.NotBefore := normNumericDate <$> jwt.NotBefore rc;
     jwt.IssuedAt := normNumericDate <$> jwt.IssuedAt rc;
     jwt.ID := json.coerce (jwt.ID rc) |}.

Definition normClaims (c : Claims) : Claims :=
  {| RegisteredClaims := normRegisteredClaims (RegisteredClaims c);
     UserID := json.coerce (UserID c);
     Roles := json.coerce <$> Roles c;
     Scopes := json.coerce <$> Scopes c |}.

(** The values the package stores in a request context, and any other.
    A [*Claims] is a pointer: the nil pointer of that type is a value of
    its own, which the type assertion of [GetClaims] accepts. *)
Inductive any :=
  | any_string (s : string)
  | any_strings (l : list string)
  | any_Claims (c : Claims)                    (* a non-nil [*Claims] *)
  | any_nil_Claims                             (* the nil [*Claims] *)   
  | any_other (type : string) (repr : string).

(** [ContextKey] and its three constants. *)
Definition ContextKey (name : string) : context.Key :=
  {| context.KeyType := "auth.ContextKey"; context.KeyName := name |}.

Definition ClaimsContextKey : context.Key := ContextKey "claims".
Definition ScopesContextKey : context.Key := ContextKey "scopes".
Definition UserIDContextKey : context.Key := ContextKey "user_id".

(** [GetUserID]: the value and whether it is there, as a string. *)
Definition GetUserID (ctx : context.Context any) : string * bool :=
  match context.Value ctx UserIDContextKey with
  | Some (any_string userID) => (userID, true)
  | _ => ("", false)
  end.

(** [GetScopes] *)
Definition GetScopes (ctx : context.Context any) : list string * bool :=
  match context.Value ctx ScopesContextKey with
  | Some (any_strings scopes) => (scopes, true)
  | _ => ([], false)
  end.

(** [GetClaims]; [None] is the nil pointer.  The assertion to [*Claims]
    holds for the nil pointer of that type too: the answer is then
    [(nil, true)]. *)
Definition GetClaims (ctx : context.Context any) : option Claims * bool :=
  match context.Value ctx ClaimsContextKey with
  | Some (any_Claims claims) => (Some claims, true)
  | Some any_nil_Claims => (None, true)
  | _ => (None, false)
  end.

(** [ExtractBearerToken] *)
Definition ExtractBearerToken (r : http.Request any) : result string :=
  let authHeader := http.Get (http.ReqHeader r) "Authorization" in
  if String.eqb authHeader "" then Err ErrMissingToken
  else
    let parts := gostrings.Split authHeader " " in
    match parts with
    | [p0; p1] => if negb (String.eqb p0 "Bearer") then Err ErrInvalidToken else Ok p1
    | _ => Err ErrInvalidToken
    end.

(** The scope check both middlewares run when [len(requiredScopes) > 0]:
    the inner loop over the scopes of the token, left at the first hit,
    and the outer loop over the required scopes, left as soon as
    [hasScope] is set. *)
Fixpoint tokenScopesLoop (requiredScope : string) (tokenScopes : list string) : bool :=
  match tokenScopes with
  | [] => false
  | tokenScope :: rest =>
      if String.eqb tokenScope requiredScope || String.eqb tokenScope "admin"
      then true
      else tokenScopesLoop requiredScope rest
  end.

Fixpoint hasScope (requiredScopes tokenScopes : list string) : bool :=
  match requiredScopes with
  | [] => false
  | requiredScope :: rest =>
      if tokenScopesLoop requiredScope tokenScopes then true
      else hasScope rest tokenScopes
  end.

(** The decision of the scope gate: [true] lets the request through. *)
Definition scopeGate (requiredScopes tokenScopes : list string) : bool :=
  if (0 <? List.length requiredScopes)%nat then hasScope requiredScopes tokenScopes
  else true.

Section Auth.
Context `{Crypto} `{Base64} `{!JSON Claims normClaims} `{!JSON jwt.Header jwt.normHeader}.

Record AuthConfig := {
  JWTSecret : string;
  JWTPrivateKey : option rsa_PrivateKey;
  JWTPublicKey : option rsa_PublicKey;
  JWTSigningMethod : string;
  JWTExpirationTime : time.Duration;
  JWTIssuer : string;
  OAuth2ClientID : string;
  OAuth2ClientSecret : string;
  OAuth2RedirectURL : string;
  OAuth2AuthURL : string;
  OAuth2TokenURL : string;
  OAuth2Scopes : list string
}.

Record Authenticator := {
  jwtSigningMethod : jwt.SigningMethod;
  jwtSecret : string;
  jwtPrivateKey : option rsa_PrivateKey;
  jwtPublicKey : option rsa_PublicKey;
  jwtIssuer : string;
  jwtExpiration : time.Duration;
  oauth2Config : oauth2.Config
}.

(** [NewAuthenticator]: the error it returns is always nil. *)
Definition NewAuthenticator (config : AuthConfig) : result Authenticator :=
  let signingMethod :=
    if String.eqb (JWTSigningMethod config) "HS256" then jwt.SigningMethodHS256
    else if String.eqb (JWTSigningMethod config) "HS384" then jwt.SigningMethodHS384
    else if String.eqb (JWTSigningMethod config) "HS512" then jwt.SigningMethodHS512
    else if String.eqb (JWTSigningMethod config) "RS256" then jwt.SigningMethodRS256
    else if String.eqb (JWTSigningMethod config) "RS384" then jwt.SigningMethodRS384
    else if String.eqb (JWTSigningMethod config) "RS512" then jwt.SigningMethodRS512
    else jwt.SigningMethodHS256 in
  let oauth2Config :=
    {| oauth2.ClientID := OAuth2ClientID config;
       oauth2.ClientSecret := OAuth2ClientSecret config;
       oauth2.RedirectURL := OAuth2RedirectURL config;
       oauth2.ConfigEndpoint :=
         {| oauth2.AuthURL := OAuth2AuthURL config;
            oauth2.TokenURL := OAuth2TokenURL config |};
       oauth2.ConfigScopes := OAuth2Scopes config |} in
  Ok {| jwtSigningMethod := signingMethod;
        jwtSecret := JWTSecret config;
        jwtPrivateKey := JWTPrivateKey config;
        jwtPublicKey := JWTPublicKey config;
        jwtIssuer := JWTIssuer config;
        jwtExpiration := JWTExpirationTime config;
        oauth2Config := oauth2Config |}.

(** The claims [GenerateJWTToken] builds, at the instant [now] read from
    the clock and with the identifier [id] drawn by [uuid.New()]. *)
Definition newClaims (a : Authenticator) (now : time.Time) (id : string)
    (userID : string) (roles scopes : list string) : Claims :=
  let expirationTime := time.Add now (jwtExpiration a) in
  {| RegisteredClaims :=
       {| jwt.ExpiresAt := Some (jwt.NewNumericDate expirationTime);
          jwt.IssuedAt := Some (jwt.NewNumericDate now);
          jwt.NotBefore := Some (jwt.NewNumericDate now);
          jwt.Issuer := jwtIssuer a;
          jwt.Subject := userID;
          jwt.Audience := [];
          jwt.ID := id |};
     UserID := userID;
     Roles := roles;
     Scopes := scopes |}.

Definition isHS (m : jwt.SigningMethod) : bool :=
  bool_decide (m = jwt.SigningMethodHS256) || bool_decide (m = jwt.SigningMethodHS384)
  || bool_decide (m = jwt.SigningMethodHS512).

Definition isRS (m : jwt.SigningMethod) : bool :=
  bool_decide (m = jwt.SigningMethodRS256) || bool_decide (m = jwt.SigningMethodRS384)
  || bool_decide (m = jwt.SigningMethodRS512).

(** [GenerateJWTToken] *)
Definition GenerateJWTToken (a : Authenticator) (now : time.Time) (id : string)
    (userID : string) (roles scopes : list string) : option (result string) :=
  let claims := newClaims a now id userID roles scopes in
  let token := jwt.NewWithClaims (jwtSigningMethod a) claims in
  let signed :=
    if isHS (jwtSigningMethod a)
    then Some (jwt.SignedString token (jwt.KeyBytes (jwtSecret a)))
    else if isRS (jwtSigningMethod a)
    then Some (jwt.SignedString token (jwt.KeyRSAPrivate (jwtPrivateKey a)))
    else None in
  match signed with
  | None => Some (Err ErrUnsupportedSigningMethod)
  | Some None => None
  | Some (Some (jwt.fail _)) => Some (Err ErrFailedToSign)
  | Some (Some (jwt.ok tokenString)) => Some (Ok tokenString)
  end.

(** The key function [VerifyJWTToken] hands to the parser. *)
Definition keyFunc (a : Authenticator) (token : jwt.Token Claims) : option jwt.Key :=
  match jwt.Method token with
  | jwt.SigningMethodHMAC _ => Some (jwt.KeyBytes (jwtSecret a))
  | jwt.SigningMethodRSA _ => Some (jwt.KeyRSAPublic (jwtPublicKey a))
  | _ => None
  end.

(** [VerifyJWTToken], at the instant [now] the validator reads from the
    clock. *)
Definition VerifyJWTToken (a : Authenticator) (now : time.Time) (tokenString : string)
  : option (result Claims) :=
  match jwt.ParseWithClaims now tokenString (keyFunc a) with
  | None => None
  | Some (jwt.fail err) =>
      if jwt.errors_Is err jwt.ErrTokenExpired then Some (Err ErrExpiredToken)
      else Some (Err ErrInvalidToken)
  | Some (jwt.ok token) =>
      if negb (jwt.Valid token) then Some (Err ErrInvalidToken)
      else Some (Ok (jwt.TokenClaims token))
  end.

(** [JWTAuthMiddleware(requiredScopes)(next).ServeHTTP(w, r)] *)
Definition JWTAuthMiddleware (a : Authenticator) (requiredScopes : list string)
    (next : http.Handler any) (now : time.Time) : http.Handler any :=
  fun w r =>
    match ExtractBearerToken r with
    | Err _ => Some (http.Error w "Unauthorized" http.StatusUnauthorized)
    | Ok token =>
        match VerifyJWTToken a now token with
        | None => None
        | Some (Err err) =>
            if decide (err = ErrExpiredToken)
            then Some (http.Error w "Token expired" http.StatusUnauthorized)
            else Some (http.Error w "Unauthorized" http.StatusUnauthorized)
        | Some (Ok claims) =>
            if negb (scopeGate requiredScopes (Scopes claims))
            then Some (http.Error w "Forbidden: insufficient scope" http.StatusForbidden)
            else
              let ctx := context.WithValue (http.Ctx r) ClaimsContextKey (any_Claims claims) in
              let ctx := context.WithValue ctx ScopesContextKey (any_strings (Scopes claims)) in
              let ctx := context.WithValue ctx UserIDContextKey (any_string (UserID claims)) in
              next w (http.WithContext r ctx)
        end
    end.

(** The scopes and the user the OAuth2 middleware assumes. *)
Definition oauth2Scopes : list string := ["read"; "write"].
Definition oauth2UserID : string := "oauth2-user-123".

(** [OAuth2AuthMiddleware(requiredScopes)(next).ServeHTTP(w, r)] *)
Definition OAuth2AuthMiddleware (a : Authenticator) (requiredScopes : list string)
    (next : http.Handler any) : http.Handler any :=
  fun w r =>
    match ExtractBearerToken r with
    | Err _ => Some (http.Error w "Unauthorized" http.StatusUnauthorized)
    | Ok _ =>
        let ctx := http.Ctx r in
        let scopes := oauth2Scopes in
        let userID := oauth2UserID in
        if negb (scopeGate requiredScopes scopes)
        then Some (http.Error w "Forbidden: insufficient scope" http.StatusForbidden)
        else
          let ctx := context.WithValue ctx ScopesContextKey (any_strings scopes) in
          let ctx := context.WithValue ctx UserIDContextKey (any_string userID) in
          next w (http.WithContext r ctx)
    end.

End Auth.

(** * An executable instance of the interface

    The laws of [Crypto], [Base64] and [JSON] are stated for any
    implementation; this one shows that they can be met and lets the
    package run on concrete requests.  A segment is written in
    hexadecimal, whose digits belong to the URL alphabet; a JSON text is
    the binary numeral that numbers the value; a signature is a tag that
    names the key and a checksum of the message. *)

Module Reference.

Fixpoint pos_to_bits (p : positive) : string :=
  match p with
  | xH => EmptyString
  | xO q => String "0" (pos_to_bits q)
  | xI q => String "1" (pos_to_bits q)
  end.

Fixpoint bits_to_pos (s : string) : option positive :=
  match s with
  | EmptyString => Some xH
  | String c rest =>
      if Ascii.eqb c "0" then xO <$> bits_to_pos rest
      else if Ascii.eqb c "1" then xI <$> bits_to_pos rest
      else None
  end.

Definition write {A} `{Countable A} (x : A) : string := pos_to_bits (encode x).
Definition read {A} `{Countable A} (s : string) : option A := bits_to_pos s ≫= decode.

Definition hexDigit (n : N) : ascii :=
  match String.get (N.to_nat n) "0123456789abcdef" with
  | Some c => c
  | None => "0"%char
  end.

Definition hexValue (c : ascii) : option N :=
  let n := N_of_ascii c in
  if ((48 <=? n) && (n <=? 57))%N then Some (n - 48)%N
  else if ((97 <=? n) && (n <=? 102))%N then Some (n - 87)%N
  else None.

Fixpoint hexEncode (s : string) : string :=
  match s with
  | EmptyString => EmptyString
  | String c rest =>
      String (hexDigit (N_of_ascii c / 16)) (String (hexDigit (N_of_ascii c mod 16))
        (hexEncode rest))
  end.

Definition unhex (a b : ascii) : option ascii :=
  hi ← hexValue a; lo ← hexValue b; Some (ascii_of_N (16 * hi + lo)).

Fixpoint hexDecode (s : string) : option string :=
  match s with
  | EmptyString => Some EmptyString
  | String a (String b rest) =>
      c ← unhex a b; r ← hexDecode rest; Some (String c r)
  | String _ EmptyString => None
  end.

(** The fields of the claims and of the header, as lists of strings. *)
Definition dateField (d : option jwt.NumericDate) : list string :=
  match d with
  | None => []
  | Some d => [write (jwt.Time d)]
  end.

Definition fieldDate (l : list string) : option (option jwt.NumericDate) :=
  match l with
  | [] => Some None
  | [s] => t ← read s; Some (Some (jwt.Build_NumericDate t))
  | _ => None
  end.

Definition claimsFields (c : Claims) : list (list string) :=
  let rc := RegisteredClaims c in
  [ [jwt.Issuer rc]; [jwt.Subject rc]; jwt.Audience rc;
    dateField (jwt.ExpiresAt rc); dateField (jwt.NotBefore rc);
    dateField (jwt.IssuedAt rc); [jwt.ID rc];
    [UserID c]; Roles c; Scopes c ].

Definition fieldsClaims (l : list (list string)) : option Claims :=
  match l with
  | [ [iss]; [sub]; aud; exp; nbf; iat; [id]; [uid]; roles; scopes ] =>
      exp ← fieldDate exp; nbf ← fieldDate nbf; iat ← fieldDate iat;
      Some {| RegisteredClaims := jwt.Build_RegisteredClaims iss sub aud exp nbf iat id;
              UserID := uid; Roles := roles; Scopes := scopes |}
  | _ => None
  end.

Definition headerFields (h : jwt.Header) : list (list string) :=
  [ option_list (jwt.alg h); option_list (jwt.typ h) ].

Definition fieldString (l : list string) : option (option string) :=
  match l with
  | [] => Some None
  | [s] => Some (Some s)
  | _ => None
  end.

Definition fieldsHeader (l : list (list string)) : option jwt.Header :=
  match l with
  | [a; t] => a ← fieldString a; t ← fieldString t; Some (jwt.Build_Header a t)
  | _ => None
  end.

(** A checksum of the message, and the tag that stands for a signature. *)
Fixpoint checksum (acc : N) (msg : string) : N :=
  match msg with
  | EmptyString => acc
  | String c rest => checksum ((acc * 31 + N_of_ascii c) mod 4294967291)%N rest
  end.

Definition keyName (k : N) : string := pos_to_bits (N.succ_pos k).

Definition tag (scheme : string) (key : string) (h : crypto.Hash) (msg : string) : string :=
  scheme ++ jwt.bits h ++ ":" ++ key ++ ":" ++ keyName (checksum 7 (key ++ msg)).

Lemma bits_to_pos_to_bits p : bits_to_pos (pos_to_bits p) = Some p.
Proof. induction p as [q IH|q IH|]; simpl; [rewrite IH..|]; reflexivity. Qed.

Lemma read_write {A} `{Countable A} (x : A) : read (write x) = Some x.
Proof. unfold read, write. rewrite bits_to_pos_to_bits. simpl. apply decode_encode. Qed.

Lemma unhex_hexDigit c :
  unhex (hexDigit (N_of_ascii c / 16)) (hexDigit (N_of_ascii c mod 16)) = Some c.
Proof. destruct c as [[] [] [] [] [] [] [] []]; reflexivity. Qed.

Lemma hexDecode_hexEncode s : hexDecode (hexEncode s) = Some s.
Proof.
  induction s as [|c rest IH]; [reflexivity|].
  cbn [hexEncode hexDecode]. rewrite unhex_hexDigit, IH. reflexivity.
Qed.

Lemma hexDigit_alphabet c :
  gostrings.Contains urlAlphabet (hexDigit (N_of_ascii c / 16)) = true
  /\ gostrings.Contains urlAlphabet (hexDigit (N_of_ascii c mod 16)) = true.
Proof. destruct c as [[] [] [] [] [] [] [] []]; split; reflexivity. Qed.

Lemma hexEncode_alphabet s : allIn urlAlphabet (hexEncode s) = true.
Proof.
  induction s as [|c rest IH]; [reflexivity|].
  destruct (hexDigit_alphabet c) as [Hhi Hlo].
  cbn [hexEncode allIn]. rewrite Hhi, Hlo, IH. reflexivity.
Qed.

Lemma fieldDate_dateField d : fieldDate (dateField d) = Some d.
Proof.
  destruct d as [[t]|]; [|reflexivity].
  unfold dateField, fieldDate. rewrite read_write. reflexivity.
Qed.

Lemma fieldsClaims_claimsFields c : fieldsClaims (claimsFields c) = Some c.
Proof.
  destruct c as [[iss sub aud exp nbf iat id] uid roles scopes].
  unfold claimsFields, fieldsClaims. cbn [RegisteredClaims UserID Roles Scopes
    jwt.Issuer jwt.Subject jwt.Audience jwt.ExpiresAt jwt.NotBefore jwt.IssuedAt jwt.ID].
  rewrite !fieldDate_dateField. reflexivity.
Qed.

Lemma fieldsHeader_headerFields h : fieldsHeader (headerFields h) = Some h.
Proof. destruct h as [[a|] [t|]]; reflexivity. Qed.

Lemma Unmarshal_Marshal_Claims c :
  read (write (claimsFields (normClaims c))) ≫= fieldsClaims = Some (normClaims c).
Proof. rewrite read_write. apply fieldsClaims_claimsFields. Qed.

Lemma Unmarshal_Marshal_Header h :
  read (write (headerFields (jwt.normHeader h))) ≫= fieldsHeader = Some (jwt.normHeader h).
Proof. rewrite read_write. apply fieldsHeader_headerFields. Qed.

Lemma tag_Verify_Sign (k : N) (h : crypto.Hash) (msg sig : string) :
  Some (tag "rsa" (keyName k) h msg) = Some sig ->
  bool_decide (sig = tag "rsa" (keyName k) h msg) = true.
Proof. intros [= <-]. apply bool_decide_eq_true. reflexivity. Qed.

#[global] Instance ref_base64 : Base64 := {|
  EncodeSegment := hexEncode;
  DecodeSegment := hexDecode;
  DecodeSegment_EncodeSegment := hexDecode_hexEncode;
  EncodeSegment_alphabet := hexEncode_alphabet
|}.

#[global] Instance ref_json_Claims : JSON Claims normClaims := {|
  Marshal c := write (claimsFields (normClaims c));
  Unmarshal s := read s ≫= fieldsClaims;
  Unmarshal_Marshal := Unmarshal_Marshal_Claims
|}.

#[global] Instance ref_json_Header : JSON jwt.Header jwt.normHeader := {|
  Marshal h := write (headerFields (jwt.normHeader h));
  Unmarshal s := read s ≫= fieldsHeader;
  Unmarshal_Marshal := Unmarshal_Marshal_Header
|}.

#[global] Instance ref_crypto : Crypto := {|
  rsa_PrivateKey := N;
  rsa_PublicKey := N;
  rsa_Public k := k;
  hmac_Sum h key msg := tag "hmac" key h msg;
  rsa_SignPKCS1v15 k h msg := Some (tag "rsa" (keyName k) h msg);
  rsa_VerifyPKCS1v15 k h msg sig := bool_decide (sig = tag "rsa" (keyName k) h msg);
  rsa_SignPSS k h msg := Some (tag "pss" (keyName k) h msg);
  rsa_VerifyPSS k h msg sig := bool_decide (sig = tag "pss" (keyName k) h msg);
  rsa_Verify_Sign := tag_Verify_Sign
|}.

End Reference.

(** * Properties *)

(** ** strings.Split *)

Lemma Split_nonempty s sep : gostrings.Split s sep <> [].
Proof.
  destruct s as [|c rest]; simpl; [discriminate|].
  destruct (Ascii.eqb c sep); [discriminate|].
  destruct (gostrings.Split rest sep); discriminate.
Qed.

Lemma Split_no_sep s sep :
  gostrings.Contains s sep = false -> gostrings.Split s sep = [s].
Proof.
  induction s as [|c rest IH]; simpl; [reflexivity|].
  intros [Hc Hrest]%orb_false_iff. rewrite Hc, (IH Hrest). reflexivity.
Qed.

Lemma Split_app a b sep :
  gostrings.Contains a sep = false ->
  gostrings.Split (a ++ String sep b) sep = a :: gostrings.Split b sep.
Proof.
  induction a as [|c rest IH]; simpl.
  - intros _. rewrite Ascii.eqb_refl. reflexivity.
  - intros [Hc Hrest]%orb_false_iff. rewrite Hc, (IH Hrest). reflexivity.
Qed.

Lemma Join_Split s sep : gostrings.Join (gostrings.Split s sep) sep = s.
Proof.
  induction s as [|c rest IH]; simpl; [reflexivity|].
  destruct (Ascii.eqb_spec c sep) as [->|Hne].
  - pose proof (Split_nonempty rest sep) as Hnil.
    destruct (gostrings.Split rest sep) as [|p ps]; [contradiction|].
    cbn [gostrings.Join]. simpl. rewrite <- IH. reflexivity.
  - pose proof (Split_nonempty rest sep) as Hnil.
    destruct (gostrings.Split rest sep) as [|p ps]; [contradiction|].
    destruct ps as [|q qs]; simpl in *; rewrite <- IH; reflexivity.
Qed.

Lemma Split_pieces s sep :
  Forall (fun p => gostrings.Contains p sep = false) (gostrings.Split s sep).
Proof.
  induction s as [|c rest IH]; simpl.
  - constructor; [reflexivity|constructor].
  - destruct (Ascii.eqb_spec c sep) as [->|Hne].
    + constructor; [reflexivity|exact IH].
    + destruct (gostrings.Split rest sep) as [|p ps]; simpl.
      * constructor; [|constructor]. simpl.
        apply orb_false_iff. split; [|reflexivity].
        apply Ascii.eqb_neq. exact Hne.
      * inversion IH as [|? ? Hp Hps]; subst. constructor; [|exact Hps].
        simpl. apply orb_false_iff. split; [|exact Hp].
        apply Ascii.eqb_neq. exact Hne.
Qed.

(** A string splits into exactly two pieces when it is these pieces
    around one separator. *)
Lemma Split_two s sep a b :
  gostrings.Split s sep = [a; b] <->
  s = a ++ String sep b /\ gostrings.Contains a sep = false
  /\ gostrings.Contains b sep = false.
Proof.
  split.
  - intros Hs. pose proof (Join_Split s sep) as HJ.
    pose proof (Split_pieces s sep) as HP. rewrite Hs in HJ. rewrite Hs in HP.
    apply Forall_cons in HP as [Ha HP]. apply Forall_cons in HP as [Hb _].
    simpl in HJ. auto.
  - intros (-> & Ha & Hb). rewrite (Split_app _ _ _ Ha), (Split_no_sep _ _ Hb).
    reflexivity.
Qed.

(** ** The scope gate *)

Lemma tokenScopesLoop_true requiredScope tokenScopes :
  tokenScopesLoop requiredScope tokenScopes = true <->
  requiredScope ∈ tokenScopes \/ "admin" ∈ tokenScopes.
Proof.
  induction tokenScopes as [|t rest IH]; simpl.
  - split; [discriminate|]. intros [Hin|Hin]; inversion Hin.
  - destruct (String.eqb_spec t requiredScope) as [->|Hne1]; simpl.
    + split; [|reflexivity]. intros _. left. constructor.
    + destruct (String.eqb_spec t "admin") as [->|Hne2]; simpl.
      * split; [|reflexivity]. intros _. right. constructor.
      * rewrite IH. split.
        -- intros [Hin|Hin]; [left|right]; constructor; exact Hin.
        -- intros [Hin|Hin]; [left|right]; inversion Hin; subst;
             solve [assumption | contradiction].
Qed.

Lemma hasScope_true requiredScopes tokenScopes :
  hasScope requiredScopes tokenScopes = true <->
  exists requiredScope, requiredScope ∈ requiredScopes
    /\ (requiredScope ∈ tokenScopes \/ "admin" ∈ tokenScopes).
Proof.
  induction requiredScopes as [|r rest IH]; simpl.
  - split; [discriminate|]. intros (s & Hin & _). inversion Hin.
  - destruct (tokenScopesLoop r tokenScopes) eqn:Hloop.
    + split; [|reflexivity]. intros _. exists r. split; [constructor|].
      apply tokenScopesLoop_true. exact Hloop.
    + rewrite IH. split.
      * intros (s & Hin & Hs). exists s. split; [constructor; exact Hin|exact Hs].
      * intros (s & Hin & Hs). inversion Hin; subst.
        -- apply tokenScopesLoop_true in Hs. congruence.
        -- exists s. auto.
Qed.

Lemma scopeGate_policy_aux (required granted : list string) :
  (required = [] -> scopeGate required granted = true)
  /\ (required <> [] ->
      (scopeGate required granted = true <->
       (exists scope, scope ∈ required /\ scope ∈ granted) \/ "admin" ∈ granted)).
Proof.
  split.
  - intros ->. reflexivity.
  - intros Hne. unfold scopeGate.
    destruct required as [|r rest]; [contradiction|]. cbn [List.length Nat.ltb Nat.leb].
    rewrite hasScope_true. split.
    + intros (s & Hin & [Hs|Hadmin]); [left; exists s; auto|right; exact Hadmin].
    + intros [(s & Hin & Hs)|Hadmin].
      * exists s. auto.
      * exists r. split; [constructor|right; exact Hadmin].
Qed.

(** C3.  The scope gate of the middlewares lets a request through when no
    scope is required; when some are, it lets the request through exactly
    when the granted scopes contain one of the required scopes or the
    scope [admin]. *)
Theorem scopeGate_policy (granted required : list string) :
  (required = [] -> scopeGate required granted = true)
  /\ (required <> [] ->
      (scopeGate required granted = true <->
       (exists scope, scope ∈ required /\ scope ∈ granted) \/ "admin" ∈ granted)).
Proof. apply scopeGate_policy_aux. Qed.

(** The three decisions the specification lists, and the middleware's use
    of the gate on the routes of the server. *)
Lemma scopeGate_policy_witness :
  scopeGate [] ["read"] = true
  /\ (scopeGate ["write"] ["admin"] = true <->
      (exists scope, scope ∈ ["write"] /\ scope ∈ ["admin"]) \/ "admin" ∈ ["admin"])
  /\ scopeGate ["write"] ["admin"] = true
  /\ scopeGate ["write"; "delete"] ["read"] = false.
Proof.
  split; [exact (proj1 (scopeGate_policy ["read"] []) eq_refl)|].
  split; [apply (proj2 (scopeGate_policy ["admin"] ["write"])); discriminate|].
  split; reflexivity.
Defined.

(** ** Bearer extraction *)

Lemma ExtractBearerToken_Ok_Split (r : http.Request any) token :
  ExtractBearerToken r = Ok token <->
  gostrings.Split (http.Get (http.ReqHeader r) "Authorization") " " = ["Bearer"; token].
Proof.
  unfold ExtractBearerToken.
  set (authHeader := http.Get (http.ReqHeader r) "Authorization").
  destruct (String.eqb_spec authHeader "") as [->|Hne].
  - split; [discriminate|]. simpl. discriminate.
  - destruct (gostrings.Split authHeader " ") as [|p0 [|p1 [|p2 ps]]];
      try (split; discriminate).
    destruct (String.eqb_spec p0 "Bearer") as [->|Hp0]; simpl.
    + split; intros [= ->]; reflexivity.
    + split; [discriminate|]. intros [= -> ->]. contradiction.
Qed.

(** C5.  [ExtractBearerToken] returns [abc] for the header [Bearer abc],
    fails with [ErrInvalidToken] (the error of a malformed header) for
    [Basic abc] and with [ErrMissingToken] for an absent or empty header;
    it succeeds exactly when the header splits at its spaces into two
    pieces of which the first is [Bearer], and it returns the second;
    that is, when the header is [Bearer], one space and a token without
    spaces. *)
Theorem ExtractBearerToken_spec (r : http.Request any) :
  let authHeader := http.Get (http.ReqHeader r) "Authorization" in
  (authHeader = "Bearer abc" -> ExtractBearerToken r = Ok "abc")
  /\ (authHeader = "Basic abc" -> ExtractBearerToken r = Err ErrInvalidToken)
  /\ (http.ReqHeader r !! "Authorization" = None -> ExtractBearerToken r = Err ErrMissingToken)
  /\ (authHeader = "" -> ExtractBearerToken r = Err ErrMissingToken)
  /\ (forall token, ExtractBearerToken r = Ok token <->
        gostrings.Split authHeader " " = ["Bearer"; token])
  /\ (forall token, ExtractBearerToken r = Ok token <->
        authHeader = "Bearer " ++ token /\ gostrings.Contains token " " = false)
  /\ ((forall token, gostrings.Split authHeader " " <> ["Bearer"; token]) ->
        authHeader <> "" -> ExtractBearerToken r = Err ErrInvalidToken).
Proof.
  intros authHeader.
  split; [|split; [|split; [|split; [|split; [|split]]]]].
  - intros Heq. apply ExtractBearerToken_Ok_Split. fold authHeader. rewrite Heq. reflexivity.
  - intros Heq. unfold ExtractBearerToken. fold authHeader. rewrite Heq. reflexivity.
  - intros Heq. unfold ExtractBearerToken, http.Get. rewrite Heq. reflexivity.
  - intros Heq. unfold ExtractBearerToken. fold authHeader. rewrite Heq. reflexivity.
  - intros token. apply ExtractBearerToken_Ok_Split.
  - intros token. rewrite ExtractBearerToken_Ok_Split. fold authHeader.
    rewrite Split_two. split.
    + intros (Heq & _ & Hb). auto.
    + intros [Heq Htok]. split; [exact Heq|]. split; [reflexivity|exact Htok].
  - intros Hno Hne. unfold ExtractBearerToken. fold authHeader.
    destruct (String.eqb_spec authHeader "") as [->|_]; [contradiction|].
    destruct (gostrings.Split authHeader " ") as [|p0 [|p1 [|p2 ps]]] eqn:Hs;
      try reflexivity.
    destruct (String.eqb_spec p0 "Bearer") as [->|Hp0]; [|reflexivity].
    exfalso. apply (Hno p1). reflexivity.
Qed.

(** A request that carries the given [Authorization] header and nothing
    else, for the examples. *)
Definition requestWith (authorization : option string) (ctx : context.Context any)
  : http.Request any :=
  {| http.ReqMethod := "GET"; http.URL := "/api/v1/protected/jwt";
     http.ReqHeader :=
       match authorization with
       | Some v => {[ "Authorization" := [v] ]}
       | None => ∅
       end;
     http.ReqBody := ""; http.Ctx := ctx |}.

Lemma ExtractBearerToken_spec_witness :
  ExtractBearerToken (requestWith (Some "Bearer abc") []) = Ok "abc"
  /\ ExtractBearerToken (requestWith (Some "Basic abc") []) = Err ErrInvalidToken
  /\ ExtractBearerToken (requestWith None []) = Err ErrMissingToken
  /\ ExtractBearerToken (requestWith (Some "") []) = Err ErrMissingToken
  /\ ExtractBearerToken (requestWith (Some "Bearer a b") []) = Err ErrInvalidToken.
Proof.
  destruct (ExtractBearerToken_spec (requestWith (Some "Bearer abc") [])) as (Habc & _).
  destruct (ExtractBearerToken_spec (requestWith (Some "Basic abc") [])) as (_ & Hbasic & _).
  destruct (ExtractBearerToken_spec (requestWith None [])) as (_ & _ & Habsent & _).
  destruct (ExtractBearerToken_spec (requestWith (Some "") [])) as (_ & _ & _ & Hempty & _).
  destruct (ExtractBearerToken_spec (requestWith (Some "Bearer a b") []))
    as (_ & _ & _ & _ & _ & _ & Hthree).
  split; [apply Habc; reflexivity|].
  split; [apply Hbasic; reflexivity|].
  split; [apply Habsent; reflexivity|].
  split; [apply Hempty; reflexivity|].
  apply Hthree.
  - intros token. vm_compute. discriminate.
  - vm_compute. discriminate.
Defined.

(** ** Tokens on the wire *)

Lemma string_app_cons (x : ascii) (a b : string) : String x a ++ b = String x (a ++ b).
Proof. reflexivity. Qed.

Lemma string_app_assoc (a b c : string) : (a ++ b) ++ c = a ++ (b ++ c).
Proof.
  induction a as [|x a IH]; [reflexivity|].
  rewrite !string_app_cons, IH. reflexivity.
Qed.

Lemma allIn_Contains alphabet s c :
  allIn alphabet s = true ->
  gostrings.Contains alphabet c = false ->
  gostrings.Contains s c = false.
Proof.
  intros Hall Hc. induction s as [|d rest IH]; simpl in *; [reflexivity|].
  apply andb_true_iff in Hall as [Hd Hrest].
  rewrite (IH Hrest), orb_false_r.
  destruct (Ascii.eqb_spec d c) as [->|_]; [congruence|reflexivity].
Qed.

Lemma Split_three a b c sep :
  gostrings.Contains a sep = false ->
  gostrings.Contains b sep = false ->
  gostrings.Contains c sep = false ->
  gostrings.Split ((a ++ String sep b) ++ String sep c) sep = [a; b; c].
Proof.
  intros Ha Hb Hc. rewrite string_app_assoc, string_app_cons.
  rewrite (Split_app _ _ _ Ha), (Split_app _ _ _ Hb), (Split_no_sep _ _ Hc).
  reflexivity.
Qed.

(** ** time *)

Lemma Truncate_Second t :
  time.Truncate t time.Second = time.Second * (t / time.Second).
Proof.
  unfold time.Truncate, time.Second. simpl.
  pose proof (Z.div_mod t 1000000000). lia.
Qed.

Lemma Truncate_le t : time.Truncate t time.Second <= t.
Proof.
  unfold time.Truncate, time.Second. simpl.
  pose proof (Z.mod_pos_bound t 1000000000). lia.
Qed.

Lemma Truncate_gt t : t < time.Truncate t time.Second + time.Second.
Proof.
  unfold time.Truncate, time.Second. simpl.
  pose proof (Z.mod_pos_bound t 1000000000). lia.
Qed.

Lemma Truncate_idem t :
  time.Truncate (time.Truncate t time.Second) time.Second = time.Truncate t time.Second.
Proof.
  rewrite !Truncate_Second. unfold time.Second.
  rewrite (Z.mul_comm 1000000000 (t / 1000000000)), Z.div_mul by lia. lia.
Qed.

Lemma Truncate_mono t u :
  t <= u -> time.Truncate t time.Second <= time.Truncate u time.Second.
Proof.
  intros Hle. rewrite !Truncate_Second. unfold time.Second.
  pose proof (Z.div_le_mono t u 1000000000). lia.
Qed.

Lemma Truncate_add_seconds t n :
  time.Truncate (t + n * time.Second) time.Second
  = time.Truncate t time.Second + n * time.Second.
Proof.
  rewrite !Truncate_Second. unfold time.Second.
  rewrite Z.div_add by lia. lia.
Qed.

Lemma normNumericDate_NewNumericDate t :
  normNumericDate (jwt.NewNumericDate t) = jwt.NewNumericDate t.
Proof.
  unfold normNumericDate, jwt.NewNumericDate, jwt.TimePrecision. simpl.
  rewrite Truncate_idem. reflexivity.
Qed.

(** ** Issued tokens verify *)

Section AuthProperties.
Context `{Crypto} `{Base64} `{!JSON Claims normClaims} `{!JSON jwt.Header jwt.normHeader}.

(** The keys of an authenticator fit its signing method: nothing is asked
    of an HMAC authenticator; an RSA authenticator verifies with the
    public half of the key it signs with. *)
Definition keyPair (a : Authenticator) : Prop :=
  isRS (jwtSigningMethod a) = true ->
  exists priv, jwtPrivateKey a = Some priv /\ jwtPublicKey a = Some (rsa_Public priv).

(** The instant a token issued at [now] expires, and the instant from
    which it is valid. *)
Definition expiresAt (a : Authenticator) (now : time.Time) : time.Time :=
  jwt.Time (jwt.NewNumericDate (time.Add now (jwtExpiration a))).

Definition notBefore (now : time.Time) : time.Time :=
  jwt.Time (jwt.NewNumericDate now).

Lemma dot_app (s : string) : "." ++ s = String "." s.
Proof. reflexivity. Qed.

Lemma EncodeSegment_no_dot s : gostrings.Contains (EncodeSegment s) "." = false.
Proof. apply (allIn_Contains urlAlphabet); [apply EncodeSegment_alphabet|reflexivity]. Qed.

Lemma EncodeSegment_no_space s : gostrings.Contains (EncodeSegment s) " " = false.
Proof. apply (allIn_Contains urlAlphabet); [apply EncodeSegment_alphabet|reflexivity]. Qed.

Lemma isHS_HMAC m : isHS m = true -> exists h, m = jwt.SigningMethodHMAC h.
Proof.
  unfold isHS. rewrite !orb_true_iff, !bool_decide_eq_true.
  intros [[->| ->]| ->]; eexists; reflexivity.
Qed.

Lemma isRS_RSA m : isRS m = true -> exists h, m = jwt.SigningMethodRSA h.
Proof.
  unfold isRS. rewrite !orb_true_iff, !bool_decide_eq_true.
  intros [[->| ->]| ->]; eexists; reflexivity.
Qed.

Lemma isHS_HMAC_true h : isHS (jwt.SigningMethodHMAC h) = true.
Proof. destruct h; reflexivity. Qed.

Lemma isRS_RSA_true h : isRS (jwt.SigningMethodRSA h) = true.
Proof. destruct h; reflexivity. Qed.

Lemma isHS_RSA_false h : isHS (jwt.SigningMethodRSA h) = false.
Proof. destruct h; reflexivity. Qed.

(** The methods the package signs with. *)
Definition signs (m : jwt.SigningMethod) : Prop :=
  match m with
  | jwt.SigningMethodHMAC _ | jwt.SigningMethodRSA _ => True
  | _ => False
  end.

Lemma GetSigningMethod_Alg m :
  signs m -> jwt.GetSigningMethod (json.coerce (jwt.Alg m)) = Some m.
Proof. destruct m as [[]|[]|[]|name]; simpl; intros Hm; solve [reflexivity | contradiction]. Qed.

(** A signed token is three segments, and it has no space in it. *)
Lemma SignedString_Split (t : jwt.Token Claims) sig :
  gostrings.Split (jwt.SigningString t ++ "." ++ EncodeSegment sig) "."
  = [ EncodeSegment (Marshal (jwt.TokenHeader t));
      EncodeSegment (Marshal (jwt.TokenClaims t));
      EncodeSegment sig ].
Proof.
  unfold jwt.SigningString. rewrite !dot_app.
  apply Split_three; apply EncodeSegment_no_dot.
Qed.

Lemma Contains_app a b c :
  gostrings.Contains (a ++ b) c = gostrings.Contains a c || gostrings.Contains b c.
Proof.
  induction a as [|x a IH]; [reflexivity|].
  rewrite string_app_cons. simpl. rewrite IH, orb_assoc. reflexivity.
Qed.

Lemma SignedString_no_space (t : jwt.Token Claims) sig :
  gostrings.Contains (jwt.SigningString t ++ "." ++ EncodeSegment sig) " " = false.
Proof.
  unfold jwt.SigningString.
  rewrite !Contains_app, !EncodeSegment_no_space. reflexivity.
Qed.

(** Parsing a token signed by [NewWithClaims] and [SignedString] gives
    back its method and its claims, up to the losses of JSON. *)
Lemma ParseUnverified_SignedString m (claims : Claims) sig :
  signs m ->
  let t := jwt.NewWithClaims m claims in
  let tokenString := jwt.SigningString t ++ "." ++ EncodeSegment sig in
  jwt.ParseUnverified tokenString
  = jwt.ok ({| jwt.Raw := tokenString; jwt.Method := m;
               jwt.TokenHeader := jwt.normHeader (jwt.TokenHeader t);
               jwt.TokenClaims := normClaims claims;
               jwt.Signature := ""; jwt.Valid := false |},
            (EncodeSegment (Marshal (jwt.TokenHeader t)),
             EncodeSegment (Marshal claims), EncodeSegment sig)).
Proof.
  intros Hm t tokenString. unfold jwt.ParseUnverified.
  unfold tokenString at 1. rewrite SignedString_Split.
  rewrite !DecodeSegment_EncodeSegment. cbn [mbind option_bind].
  rewrite !Unmarshal_Marshal.
  cbn [jwt.normHeader jwt.alg jwt.TokenHeader t jwt.NewWithClaims fmap option_fmap option_map
       mbind option_bind].
  rewrite (GetSigningMethod_Alg m Hm). reflexivity.
Qed.

(** What [GenerateJWTToken] returns when it returns a token: the signing
    string of the new claims, a dot and the signature made with the key
    of the method. *)
Lemma GenerateJWTToken_Ok a now id userID roles scopes tokenString :
  GenerateJWTToken a now id userID roles scopes = Some (Ok tokenString) ->
  let t := jwt.NewWithClaims (jwtSigningMethod a) (newClaims a now id userID roles scopes) in
  exists sig,
    tokenString = jwt.SigningString t ++ "." ++ EncodeSegment sig
    /\ ((exists h, jwtSigningMethod a = jwt.SigningMethodHMAC h
                   /\ sig = hmac_Sum h (jwtSecret a) (jwt.SigningString t))
        \/ (exists h priv, jwtSigningMethod a = jwt.SigningMethodRSA h
                   /\ jwtPrivateKey a = Some priv
                   /\ rsa_SignPKCS1v15 priv h (jwt.SigningString t) = Some sig)).
Proof.
  intros Hgen t. unfold GenerateJWTToken in Hgen. fold t in Hgen.
  destruct (isHS (jwtSigningMethod a)) eqn:HHS.
  - destruct (isHS_HMAC _ HHS) as [h Hh].
    unfold jwt.SignedString in Hgen.
    replace (jwt.Method t) with (jwt.SigningMethodHMAC h) in Hgen
      by (symmetry; exact Hh).
    cbn [jwt.Sign] in Hgen. injection Hgen as <-.
    eexists. split; [reflexivity|]. left. exists h. auto.
  - destruct (isRS (jwtSigningMethod a)) eqn:HRS; [|discriminate].
    destruct (isRS_RSA _ HRS) as [h Hh].
    unfold jwt.SignedString in Hgen.
    replace (jwt.Method t) with (jwt.SigningMethodRSA h) in Hgen
      by (symmetry; exact Hh).
    cbn [jwt.Sign] in Hgen.
    destruct (jwtPrivateKey a) as [priv|] eqn:Hpriv; [|discriminate].
    destruct (rsa_SignPKCS1v15 priv h (jwt.SigningString t)) as [sig|] eqn:Hsig;
      [|discriminate].
    injection Hgen as <-.
    exists sig. split; [reflexivity|]. right. exists h, priv. auto.
Qed.

(** An HMAC authenticator always returns a token. *)
Lemma GenerateJWTToken_HMAC a now id userID roles scopes :
  isHS (jwtSigningMethod a) = true ->
  exists tokenString, GenerateJWTToken a now id userID roles scopes = Some (Ok tokenString).
Proof.
  intros HHS. unfold GenerateJWTToken. rewrite HHS.
  destruct (isHS_HMAC _ HHS) as [h Hh]. unfold jwt.SignedString.
  replace (jwt.Method (jwt.NewWithClaims (jwtSigningMethod a)
             (newClaims a now id userID roles scopes)))
    with (jwt.SigningMethodHMAC h) by (symmetry; exact Hh).
  cbn [jwt.Sign]. eexists. reflexivity.
Qed.

(** The validator on the claims of an issued token. *)
Lemma Validate_newClaims a now0 id userID roles scopes now :
  jwt.Validate now (normClaims (newClaims a now0 id userID roles scopes))
  = ((if now <? expiresAt a now0 then [] else [jwt.ErrTokenExpired])
     ++ (if now <? notBefore now0 then [jwt.ErrTokenNotValidYet] else []))%list.
Proof.
  unfold jwt.Validate, jwt.verifyExpiresAt, jwt.verifyNotBefore, newClaims.
  cbn [jwt.GetExpirationTime jwt.GetNotBefore Claims_jwt_Claims normClaims
       normRegisteredClaims RegisteredClaims jwt.ExpiresAt jwt.NotBefore
       fmap option_fmap option_map].
  rewrite !normNumericDate_NewNumericDate.
  unfold expiresAt, notBefore, time.Before.
  destruct (now <? _); destruct (now <? _); reflexivity.
Qed.

(** Verifying an issued token, at any instant: expired from [expiresAt]
    on, not yet valid before [notBefore], and otherwise the claims that
    were issued, as JSON carries them. *)
Lemma VerifyJWTToken_GenerateJWTToken a now0 id userID roles scopes tokenString now :
  keyPair a ->
  GenerateJWTToken a now0 id userID roles scopes = Some (Ok tokenString) ->
  VerifyJWTToken a now tokenString
  = Some (if now <? expiresAt a now0
          then if now <? notBefore now0 then Err ErrInvalidToken
               else Ok (normClaims (newClaims a now0 id userID roles scopes))
          else Err ErrExpiredToken).
Proof.
  intros Hkeys Hgen.
  destruct (GenerateJWTToken_Ok _ _ _ _ _ _ _ Hgen) as (sig & -> & Hsig).
  set (claims := newClaims a now0 id userID roles scopes) in *.
  assert (Hm : signs (jwtSigningMethod a)).
  { destruct Hsig as [(h & -> & _)|(h & priv & -> & _)]; exact I. }
  unfold VerifyJWTToken, jwt.ParseWithClaims.
  rewrite (ParseUnverified_SignedString _ claims sig Hm).
  rewrite DecodeSegment_EncodeSegment.
  cbn [jwt.Method jwt.TokenClaims jwt.Raw jwt.TokenHeader].
  assert (Hverify :
    exists key, keyFunc a
        {| jwt.Raw := jwt.SigningString (jwt.NewWithClaims (jwtSigningMethod a) claims)
                      ++ "." ++ EncodeSegment sig;
           jwt.Method := jwtSigningMethod a;
           jwt.TokenHeader :=
             jwt.normHeader (jwt.TokenHeader (jwt.NewWithClaims (jwtSigningMethod a) claims));
           jwt.TokenClaims := normClaims claims;
           jwt.Signature := ""; jwt.Valid := false |} = Some key
      /\ jwt.Verify (jwtSigningMethod a)
           (jwt.SigningString (jwt.NewWithClaims (jwtSigningMethod a) claims)) sig key
         = Some (jwt.ok tt)).
  { destruct Hsig as [(h & Hh & ->)|(h & priv & Hh & Hpriv & Hsign)].
    - exists (jwt.KeyBytes (jwtSecret a)). unfold keyFunc. cbn [jwt.Method].
      rewrite Hh. split; [reflexivity|]. cbn [jwt.Verify].
      rewrite bool_decide_eq_true_2; reflexivity.
    - destruct Hkeys as (priv' & Hpriv' & Hpub).
      { rewrite Hh. apply isRS_RSA_true. }
      rewrite Hpriv in Hpriv'. injection Hpriv' as <-.
      exists (jwt.KeyRSAPublic (Some (rsa_Public priv))). unfold keyFunc.
      cbn [jwt.Method]. rewrite Hh, Hpub. split; [reflexivity|]. cbn [jwt.Verify].
      rewrite Hh in Hsign. rewrite (rsa_Verify_Sign _ _ _ _ Hsign). reflexivity. }
  destruct Hverify as (key & -> & Hv).
  change (EncodeSegment (Marshal (jwt.TokenHeader
            (jwt.NewWithClaims (jwtSigningMethod a) claims))) ++ "." ++
          EncodeSegment (Marshal claims))
    with (jwt.SigningString (jwt.NewWithClaims (jwtSigningMethod a) claims)).
  rewrite Hv. subst claims. rewrite Validate_newClaims.
  destruct (now <? expiresAt a now0); destruct (now <? notBefore now0); reflexivity.
Qed.

Lemma coerce_Forall_Valid (l : list string) :
  Forall json.Valid l -> json.coerce <$> l = l.
Proof.
  induction 1 as [|s l Hs _ IH]; [reflexivity|].
  rewrite fmap_cons, IH, Hs. reflexivity.
Qed.

Lemma notBefore_le now : notBefore now <= now.
Proof. unfold notBefore, jwt.NewNumericDate, jwt.TimePrecision. simpl. apply Truncate_le. Qed.

Lemma expiresAt_le a now : expiresAt a now <= now + jwtExpiration a.
Proof.
  unfold expiresAt, jwt.NewNumericDate, jwt.TimePrecision, time.Add. simpl.
  apply Truncate_le.
Qed.

(** C1, as the code has it.  Let the keys of the authenticator fit its
    signing method, and let the subject, the roles and the scopes be
    valid UTF-8.  An HMAC authenticator then always issues a token, and
    every token [GenerateJWTToken] issues at [now0] is accepted by
    [VerifyJWTToken] at any instant from [now0] on and before it
    expires, with claims whose user, subject, roles and scopes are those
    the token was issued for. *)
Theorem VerifyJWTToken_roundtrip a now0 id userID roles scopes now :
  keyPair a ->
  json.Valid userID -> Forall json.Valid roles -> Forall json.Valid scopes ->
  now0 <= now -> now < expiresAt a now0 ->
  (isHS (jwtSigningMethod a) = true ->
   exists tokenString,
     GenerateJWTToken a now0 id userID roles scopes = Some (Ok tokenString))
  /\ (forall tokenString,
        GenerateJWTToken a now0 id userID roles scopes = Some (Ok tokenString) ->
        exists claims,
          VerifyJWTToken a now tokenString = Some (Ok claims)
          /\ UserID claims = userID
          /\ jwt.Subject (RegisteredClaims claims) = userID
          /\ Roles claims = roles
          /\ Scopes claims = scopes).
Proof.
  intros Hkeys Huser Hroles Hscopes Hafter Hbefore. split.
  - apply GenerateJWTToken_HMAC.
  - intros tokenString Hgen.
    exists (normClaims (newClaims a now0 id userID roles scopes)).
    rewrite (VerifyJWTToken_GenerateJWTToken _ _ _ _ _ _ _ now Hkeys Hgen).
    pose proof (notBefore_le now0) as Hnbf.
    destruct (Z.ltb_spec now (expiresAt a now0)) as [_|Hexp]; [|lia].
    destruct (Z.ltb_spec now (notBefore now0)) as [Hlt|_]; [lia|].
    split; [reflexivity|].
    cbn [normClaims newClaims UserID Roles Scopes RegisteredClaims
         normRegisteredClaims jwt.Subject].
    rewrite (coerce_Forall_Valid _ Hroles), (coerce_Forall_Valid _ Hscopes).
    repeat split; try reflexivity; exact Huser.
Qed.

(** C2, as the code has it.  A token issued at [now0] with lifetime [L]
    expires at [now0 + L] truncated to whole seconds.  From that instant
    on [VerifyJWTToken] fails with [ErrExpiredToken]: in particular at
    [now0 + L] itself and at every later instant.  It succeeds at every
    instant from [now0] on that is strictly before the expiry: the check
    is "now is before the expiry", and a token that expires at exactly
    [now] is no longer valid. *)
Theorem VerifyJWTToken_expiry a now0 id userID roles scopes tokenString now :
  keyPair a ->
  GenerateJWTToken a now0 id userID roles scopes = Some (Ok tokenString) ->
  expiresAt a now0 = time.Truncate (now0 + jwtExpiration a) time.Second
  /\ (expiresAt a now0 <= now ->
      VerifyJWTToken a now tokenString = Some (Err ErrExpiredToken))
  /\ (now0 + jwtExpiration a <= now ->
      VerifyJWTToken a now tokenString = Some (Err ErrExpiredToken))
  /\ (now0 <= now -> now < expiresAt a now0 ->
      exists claims, VerifyJWTToken a now tokenString = Some (Ok claims)).
Proof.
  intros Hkeys Hgen.
  rewrite (VerifyJWTToken_GenerateJWTToken _ _ _ _ _ _ _ now Hkeys Hgen).
  pose proof (notBefore_le now0) as Hnbf.
  pose proof (expiresAt_le a now0) as Hexp.
  split; [reflexivity|]. split; [|split].
  - intros Hle. destruct (Z.ltb_spec now (expiresAt a now0)); [lia|reflexivity].
  - intros Hle. destruct (Z.ltb_spec now (expiresAt a now0)); [lia|reflexivity].
  - intros Hafter Hbefore.
    destruct (Z.ltb_spec now (expiresAt a now0)); [|lia].
    destruct (Z.ltb_spec now (notBefore now0)); [lia|].
    eexists. reflexivity.
Qed.

(** C8, as the code has it.  The claims [GenerateJWTToken] builds at
    [now] carry [now] truncated to whole seconds as [iat] and [nbf], and
    [now] plus the configured lifetime, truncated likewise, as [exp];
    they are the claims segment of the token it returns.  [exp] is
    strictly after [iat] whenever the lifetime is at least one second,
    and it is [iat] plus the lifetime whenever the lifetime is a whole
    number of seconds. *)
Theorem newClaims_dates a now id userID roles scopes :
  let claims := newClaims a now id userID roles scopes in
  exists iat exp,
    jwt.IssuedAt (RegisteredClaims claims) = Some iat
    /\ jwt.NotBefore (RegisteredClaims claims) = Some iat
    /\ jwt.ExpiresAt (RegisteredClaims claims) = Some exp
    /\ jwt.Time iat = time.Truncate now time.Second
    /\ jwt.Time exp = time.Truncate (now + jwtExpiration a) time.Second
    /\ (time.Second <= jwtExpiration a -> jwt.Time iat < jwt.Time exp)
    /\ (forall n, jwtExpiration a = n * time.Second ->
        jwt.Time exp = jwt.Time iat + jwtExpiration a)
    /\ (forall tokenString,
        GenerateJWTToken a now id userID roles scopes = Some (Ok tokenString) ->
        exists header sig,
          tokenString = header ++ "." ++ EncodeSegment (Marshal claims) ++ "." ++ sig).
Proof.
  intros claims.
  exists (jwt.NewNumericDate now), (jwt.NewNumericDate (time.Add now (jwtExpiration a))).
  split; [reflexivity|]. split; [reflexivity|]. split; [reflexivity|].
  split; [reflexivity|]. split; [reflexivity|].
  unfold jwt.NewNumericDate, jwt.TimePrecision, time.Add. cbn [jwt.Time].
  split; [|split].
  - intros Hlife.
    pose proof (Truncate_mono (now + time.Second) (now + jwtExpiration a)) as Hmono.
    pose proof (Truncate_add_seconds now 1) as Hadd. rewrite Z.mul_1_l in Hadd.
    assert (0 < time.Second) as Hpos by reflexivity.
    specialize (Hmono ltac:(lia)). lia.
  - intros n Hn. rewrite Hn. apply Truncate_add_seconds.
  - intros tokenString Hgen.
    destruct (GenerateJWTToken_Ok _ _ _ _ _ _ _ Hgen) as (sig & -> & _).
    unfold jwt.SigningString. cbn [jwt.TokenClaims jwt.TokenHeader jwt.NewWithClaims].
    exists (EncodeSegment (Marshal {| jwt.alg := Some (jwt.Alg (jwtSigningMethod a));
                                      jwt.typ := Some "JWT" |})),
           (EncodeSegment sig).
    rewrite string_app_assoc, (string_app_assoc "."). reflexivity.
Qed.

(** ** The JWT middleware *)

(** [VerifyJWTToken] fails with one of two errors only. *)
Lemma VerifyJWTToken_errors a now token e :
  VerifyJWTToken a now token = Some (Err e) ->
  e = ErrExpiredToken \/ e = ErrInvalidToken.
Proof.
  unfold VerifyJWTToken.
  destruct (jwt.ParseWithClaims now token (keyFunc a)) as [[t|err]|]; [| |discriminate].
  - destruct (negb (jwt.Valid t)); intros [= <-]. right. reflexivity.
  - destruct (jwt.errors_Is err jwt.ErrTokenExpired); intros [= <-]; auto.
Qed.

(** What [http.Error] leaves in a writer nothing was written to. *)
Lemma Error_fresh w msg code :
  http.Code w = None ->
  http.Code (http.Error w msg code) = Some code
  /\ http.Body (http.Error w msg code) = http.Body w ++ msg ++ http.newline.
Proof.
  intros Hfresh. unfold http.Error, http.Write, http.WriteHeader.
  cbn [http.Code http.Body http.HeaderMap]. rewrite Hfresh.
  cbn [http.Code http.Body http.HeaderMap]. split; reflexivity.
Qed.

(** The requests the JWT middleware turns away: no bearer token, a token
    that does not verify, or scopes the gate refuses. *)
Definition rejected (a : Authenticator) (requiredScopes : list string)
    (now : time.Time) (r : http.Request any) : Prop :=
  match ExtractBearerToken r with
  | Err _ => True
  | Ok token =>
      match VerifyJWTToken a now token with
      | None => False
      | Some (Err _) => True
      | Some (Ok claims) => scopeGate requiredScopes (Scopes claims) = false
      end
  end.

(** The rejections of the JWT middleware in the runs in which
    [VerifyJWTToken] returns.  The middleware extracts the bearer token,
    then verifies it, then checks the scopes.  When the extraction fails
    it answers [http.Error(w, "Unauthorized", 401)], whatever the token
    or the scopes; when the verification returns [ErrExpiredToken] it
    answers [http.Error(w, "Token expired", 401)], and when it returns
    any other error [http.Error(w, "Unauthorized", 401)], whatever the
    scopes; when the gate refuses the scopes it answers
    [http.Error(w, "Forbidden: insufficient scope", 403)].  In each of
    these cases the answer is the same for every next handler: the next
    handler is not called.  On a writer nothing was written to,
    [http.Error] sets the status and writes the message and a newline.
    A verification that panics is none of these cases: see
    [rs256Request] below. *)
Theorem JWTAuthMiddleware_rejects a requiredScopes next now w r :
  (forall e, ExtractBearerToken r = Err e ->
     JWTAuthMiddleware a requiredScopes next now w r
     = Some (http.Error w "Unauthorized" 401))
  /\ (forall token, ExtractBearerToken r = Ok token ->
      VerifyJWTToken a now token = Some (Err ErrExpiredToken) ->
      JWTAuthMiddleware a requiredScopes next now w r
      = Some (http.Error w "Token expired" 401))
  /\ (forall token e, ExtractBearerToken r = Ok token ->
      VerifyJWTToken a now token = Some (Err e) -> e <> ErrExpiredToken ->
      JWTAuthMiddleware a requiredScopes next now w r
      = Some (http.Error w "Unauthorized" 401))
  /\ (forall token claims, ExtractBearerToken r = Ok token ->
      VerifyJWTToken a now token = Some (Ok claims) ->
      scopeGate requiredScopes (Scopes claims) = false ->
      JWTAuthMiddleware a requiredScopes next now w r
      = Some (http.Error w "Forbidden: insufficient scope" 403))
  /\ (rejected a requiredScopes now r ->
      forall next',
        JWTAuthMiddleware a requiredScopes next' now w r
        = JWTAuthMiddleware a requiredScopes next now w r)
  /\ (http.Code w = None ->
      forall msg code,
        http.Code (http.Error w msg code) = Some code
        /\ http.Body (http.Error w msg code) = http.Body w ++ msg ++ http.newline).
Proof.
  unfold JWTAuthMiddleware, rejected.
  split; [|split; [|split; [|split; [|split]]]].
  - intros e ->. reflexivity.
  - intros token -> ->. reflexivity.
  - intros token e -> -> Hne. destruct (decide (e = ErrExpiredToken)); [contradiction|reflexivity].
  - intros token claims -> -> ->. reflexivity.
  - destruct (ExtractBearerToken r) as [token|e]; [|reflexivity].
    destruct (VerifyJWTToken a now token) as [[claims|e]|]; [|reflexivity|contradiction].
    intros ->. reflexivity.
  - intros Hfresh msg code. apply Error_fresh. exact Hfresh.
Qed.

(** The context the JWT middleware hands to the next handler. *)
Definition jwtContext (ctx : context.Context any) (claims : Claims) : context.Context any :=
  context.WithValue
    (context.WithValue
       (context.WithValue ctx ClaimsContextKey (any_Claims claims))
       ScopesContextKey (any_strings (Scopes claims)))
    UserIDContextKey (any_string (UserID claims)).

(** C6.  For a request whose bearer token verifies and whose scopes pass
    the gate, the JWT middleware answers what the next handler answers on
    the same writer and on the request with its context extended, and
    nothing else of it changed; in that context [GetClaims] finds the
    verified claims, [GetScopes] their scopes and [GetUserID] their user,
    and every other key keeps its value. *)
Theorem JWTAuthMiddleware_authorized a requiredScopes next now w r token claims :
  ExtractBearerToken r = Ok token ->
  VerifyJWTToken a now token = Some (Ok claims) ->
  scopeGate requiredScopes (Scopes claims) = true ->
  let r' := http.WithContext r (jwtContext (http.Ctx r) claims) in
  JWTAuthMiddleware a requiredScopes next now w r = next w r'
  /\ http.ReqMethod r' = http.ReqMethod r /\ http.URL r' = http.URL r
  /\ http.ReqHeader r' = http.ReqHeader r /\ http.ReqBody r' = http.ReqBody r
  /\ GetClaims (http.Ctx r') = (Some claims, true)
  /\ GetScopes (http.Ctx r') = (Scopes claims, true)
  /\ GetUserID (http.Ctx r') = (UserID claims, true)
  /\ (forall key, key <> ClaimsContextKey -> key <> ScopesContextKey ->
        key <> UserIDContextKey ->
        context.Value (http.Ctx r') key = context.Value (http.Ctx r) key).
Proof.
  intros Hextract Hverify Hgate r'.
  split.
  - unfold JWTAuthMiddleware. rewrite Hextract, Hverify, Hgate. reflexivity.
  - repeat (split; [reflexivity|]).
    intros key Hc Hs Hu. subst r'. unfold jwtContext, context.WithValue.
    cbn [http.Ctx http.WithContext context.Value].
    destruct (decide (UserIDContextKey = key)) as [<-|_]; [contradiction|].
    destruct (decide (ScopesContextKey = key)) as [<-|_]; [contradiction|].
    destruct (decide (ClaimsContextKey = key)) as [<-|_]; [contradiction|].
    reflexivity.
Qed.

(** X14.  End to end: a token issued for a user whose name is valid
    UTF-8, sent as a bearer token while it is valid to a route one of
    whose required scopes it was issued for, reaches the next handler,
    and [GetUserID] returns the user there. *)
Lemma JWTAuthMiddleware_issued a requiredScopes next w ctx now0 id userID roles scopes
    tokenString now scope :
  keyPair a -> json.Valid userID -> Forall json.Valid scopes ->
  scope ∈ requiredScopes -> scope ∈ scopes ->
  now0 <= now -> now < expiresAt a now0 ->
  GenerateJWTToken a now0 id userID roles scopes = Some (Ok tokenString) ->
  exists r',
    JWTAuthMiddleware a requiredScopes next now w
      (requestWith (Some ("Bearer " ++ tokenString)) ctx) = next w r'
    /\ GetUserID (http.Ctx r') = (userID, true)
    /\ GetScopes (http.Ctx r') = (scopes, true).
Proof.
  intros Hkeys Huser Hscopes Hreq Hgranted Hafter Hbefore Hgen.
  set (r := requestWith (Some ("Bearer " ++ tokenString)) ctx).
  assert (Hextract : ExtractBearerToken r = Ok tokenString).
  { apply ExtractBearerToken_Ok_Split. unfold r, requestWith, http.Get.
    cbn [http.ReqHeader]. rewrite lookup_singleton_eq.
    apply Split_two. split; [reflexivity|]. split; [reflexivity|].
    destruct (GenerateJWTToken_Ok _ _ _ _ _ _ _ Hgen) as (sig & -> & _).
    apply SignedString_no_space. }
  pose proof (VerifyJWTToken_GenerateJWTToken _ _ _ _ _ _ _ now Hkeys Hgen) as Hverify.
  pose proof (notBefore_le now0) as Hnbf.
  destruct (Z.ltb_spec now (expiresAt a now0)) as [_|?]; [|lia].
  destruct (Z.ltb_spec now (notBefore now0)) as [?|_]; [lia|].
  set (claims := normClaims (newClaims a now0 id userID roles scopes)) in *.
  assert (Hsc : Scopes claims = scopes).
  { unfold claims. cbn [normClaims newClaims Scopes]. apply coerce_Forall_Valid, Hscopes. }
  assert (Hgate : scopeGate requiredScopes (Scopes claims) = true).
  { rewrite Hsc. destruct requiredScopes as [|r0 rest]; [reflexivity|].
    unfold scopeGate. cbn [List.length Nat.ltb Nat.leb].
    apply hasScope_true. exists scope. auto. }
  exists (http.WithContext r (jwtContext (http.Ctx r) claims)).
  unfold JWTAuthMiddleware. rewrite Hextract, Hverify, Hgate.
  split; [reflexivity|]. split.
  - unfold claims. cbn [normClaims newClaims UserID]. unfold GetUserID.
    cbn. rewrite Huser. reflexivity.
  - rewrite <- Hsc. reflexivity.
Qed.

(** ** The signing method of a new authenticator *)

(** The names [NewAuthenticator] knows. *)
Definition knownSigningMethods : list string :=
  ["HS256"; "HS384"; "HS512"; "RS256"; "RS384"; "RS512"].

(** C7.  For a configured signing method that is none of the six names,
    [NewAuthenticator] returns an authenticator and no error, and its
    signing method is HMAC-SHA256; every token this authenticator issues
    has the header algorithm [HS256] and is signed with the HMAC-SHA256
    of its signing string under the configured secret. *)
Theorem NewAuthenticator_fallback (config : AuthConfig) :
  JWTSigningMethod config ∉ knownSigningMethods ->
  exists a,
    NewAuthenticator config = Ok a
    /\ jwtSigningMethod a = jwt.SigningMethodHS256
    /\ jwtSigningMethod a = jwt.SigningMethodHMAC crypto.SHA256
    /\ forall now id userID roles scopes,
         let t := jwt.NewWithClaims jwt.SigningMethodHS256
                    (newClaims a now id userID roles scopes) in
         jwt.alg (jwt.TokenHeader t) = Some "HS256"
         /\ GenerateJWTToken a now id userID roles scopes
            = Some (Ok (jwt.SigningString t ++ "." ++
                        EncodeSegment (hmac_Sum crypto.SHA256 (JWTSecret config)
                                         (jwt.SigningString t)))).
Proof.
  intros Hnot. unfold knownSigningMethods in Hnot.
  repeat (apply not_elem_of_cons in Hnot as [?%String.eqb_neq Hnot]).
  eexists. split.
  - unfold NewAuthenticator.
    repeat match goal with
           | Hn : (_ =? _)%string = false |- _ => rewrite Hn; clear Hn
           end.
    reflexivity.
  - split; [reflexivity|]. split; [reflexivity|].
    intros now id userID roles scopes t. split; reflexivity.
Qed.

(** ** The OAuth2 middleware *)

(** The context the OAuth2 middleware hands to the next handler. *)
Definition oauth2Context (ctx : context.Context any) : context.Context any :=
  context.WithValue
    (context.WithValue ctx ScopesContextKey (any_strings oauth2Scopes))
    UserIDContextKey (any_string oauth2UserID).

Lemma scopeGate_oauth2Scopes requiredScopes :
  scopeGate requiredScopes oauth2Scopes = true <->
  requiredScopes = [] \/ "read" ∈ requiredScopes \/ "write" ∈ requiredScopes.
Proof.
  destruct requiredScopes as [|r0 rest].
  - split; [auto|reflexivity].
  - pose proof (proj2 (scopeGate_policy_aux (r0 :: rest) oauth2Scopes)) as Hpol.
    rewrite Hpol by discriminate. unfold oauth2Scopes. split.
    + intros [(s & Hin & Hs)|Hadmin].
      * right. apply elem_of_cons in Hs as [->|Hs]; [left; exact Hin|].
        apply elem_of_cons in Hs as [->|Hs]; [right; exact Hin|]. inversion Hs.
      * exfalso. repeat (apply elem_of_cons in Hadmin as [?|Hadmin]; [discriminate|]).
        inversion Hadmin.
    + intros [?|[Hin|Hin]]; [discriminate| |]; left.
      * exists "read". split; [exact Hin|constructor].
      * exists "write". split; [exact Hin|]. constructor. constructor.
Qed.

(** C9, as the code has it.  The OAuth2 middleware answers
    [http.Error(w, "Unauthorized", 401)] to a request without a bearer
    token.  To a request with one it never looks at the token: it runs
    the scope gate on the fixed scopes [read] and [write], which pass
    when no scope is required or when [read] or [write] is among the
    required scopes; when they pass it calls the next handler with the
    fixed scopes and the fixed user [oauth2-user-123] attached to the
    context, and when they do not it answers
    [http.Error(w, "Forbidden: insufficient scope", 403)] and does not
    call the next handler. *)
Theorem OAuth2AuthMiddleware_stub a requiredScopes next w r :
  (forall e, ExtractBearerToken r = Err e ->
     OAuth2AuthMiddleware a requiredScopes next w r
     = Some (http.Error w "Unauthorized" 401))
  /\ (forall token, ExtractBearerToken r = Ok token ->
      (requiredScopes = [] \/ "read" ∈ requiredScopes \/ "write" ∈ requiredScopes) ->
      OAuth2AuthMiddleware a requiredScopes next w r
      = next w (http.WithContext r (oauth2Context (http.Ctx r)))
      /\ GetScopes (oauth2Context (http.Ctx r)) = (["read"; "write"], true)
      /\ GetUserID (oauth2Context (http.Ctx r)) = ("oauth2-user-123", true))
  /\ (forall token, ExtractBearerToken r = Ok token ->
      ~ (requiredScopes = [] \/ "read" ∈ requiredScopes \/ "write" ∈ requiredScopes) ->
      forall next',
        OAuth2AuthMiddleware a requiredScopes next' w r
        = Some (http.Error w "Forbidden: insufficient scope" 403)).
Proof.
  unfold OAuth2AuthMiddleware. split; [|split].
  - intros e ->. reflexivity.
  - intros token -> Hpass. apply scopeGate_oauth2Scopes in Hpass. rewrite Hpass.
    repeat split; reflexivity.
  - intros token -> Hfail next'.
    destruct (scopeGate requiredScopes oauth2Scopes) eqn:Hgate; [|reflexivity].
    exfalso. apply Hfail, scopeGate_oauth2Scopes, Hgate.
Qed.

(** C10, as the code has it.  The OAuth2 middleware attaches scopes and a
    user to the context and nothing under the claims key: in the context
    of a request it lets through, [GetScopes] and [GetUserID] succeed,
    and [GetClaims] returns what it returns in the context the request
    came with; it reports absence whenever no claims were attached before
    the middleware ran. *)
Theorem OAuth2AuthMiddleware_claims a requiredScopes next w r token :
  ExtractBearerToken r = Ok token ->
  scopeGate requiredScopes oauth2Scopes = true ->
  let r' := http.WithContext r (oauth2Context (http.Ctx r)) in
  OAuth2AuthMiddleware a requiredScopes next w r = next w r'
  /\ fst (GetScopes (http.Ctx r')) = oauth2Scopes /\ snd (GetScopes (http.Ctx r')) = true
  /\ fst (GetUserID (http.Ctx r')) = oauth2UserID /\ snd (GetUserID (http.Ctx r')) = true
  /\ GetClaims (http.Ctx r') = GetClaims (http.Ctx r)
  /\ (context.Value (http.Ctx r) ClaimsContextKey = None ->
      GetClaims (http.Ctx r') = (None, false)).
Proof.
  intros Hextract Hgate r'.
  assert (Hclaims : GetClaims (http.Ctx r') = GetClaims (http.Ctx r)) by reflexivity.
  split.
  - unfold OAuth2AuthMiddleware. rewrite Hextract, Hgate. reflexivity.
  - do 4 (split; [reflexivity|]). split; [exact Hclaims|].
    intros Hnone. rewrite Hclaims. unfold GetClaims. rewrite Hnone. reflexivity.
Qed.

End AuthProperties.

(** * The package at work on concrete requests

    The configuration is the default one of the server (HS256, a
    lifetime of 24 hours, no RSA key); the interface is met by
    [Reference]. *)

Definition defaultConfig : AuthConfig :=
  {| JWTSecret := "your-secret-key-change-me-in-production";
     JWTPrivateKey := None;
     JWTPublicKey := None;
     JWTSigningMethod := "HS256";
     JWTExpirationTime := 24 * time.Hour;
     JWTIssuer := "api-template";
     OAuth2ClientID := "example-client-id";
     OAuth2ClientSecret := "example-client-secret";
     OAuth2RedirectURL := "http://localhost:8080/auth/callback";
     OAuth2AuthURL := "https://example.com/oauth/authorize";
     OAuth2TokenURL := "https://example.com/oauth/token";
     OAuth2Scopes := ["read"; "write"] |}.

(** The zero value of [AuthConfig]: what a caller gets who sets nothing. *)
Definition zeroConfig : AuthConfig :=
  {| JWTSecret := ""; JWTPrivateKey := None; JWTPublicKey := None;
     JWTSigningMethod := ""; JWTExpirationTime := 0; JWTIssuer := "";
     OAuth2ClientID := ""; OAuth2ClientSecret := ""; OAuth2RedirectURL := "";
     OAuth2AuthURL := ""; OAuth2TokenURL := ""; OAuth2Scopes := [] |}.

Definition zeroAuthenticator : Authenticator :=
  {| jwtSigningMethod := jwt.SigningMethodOther ""; jwtSecret := "";
     jwtPrivateKey := None; jwtPublicKey := None; jwtIssuer := "";
     jwtExpiration := 0;
     oauth2Config :=
       {| oauth2.ClientID := ""; oauth2.ClientSecret := ""; oauth2.RedirectURL := "";
          oauth2.ConfigEndpoint := {| oauth2.AuthURL := ""; oauth2.TokenURL := "" |};
          oauth2.ConfigScopes := [] |} |}.

(** The authenticator of a configuration ([NewAuthenticator] never fails). *)
Definition authenticatorOf (config : AuthConfig) : Authenticator :=
  match NewAuthenticator config with
  | Ok a => a
  | Err _ => zeroAuthenticator
  end.

Definition defaultAuthenticator : Authenticator := authenticatorOf defaultConfig.

(** The token of a call that returns one. *)
Definition tokenOf (generated : option (result string)) : string :=
  match generated with
  | Some (Ok tokenString) => tokenString
  | _ => ""
  end.

(** An instant that is a whole number of seconds, and tokens issued then. *)
Definition issuedAt : time.Time := 1700000000 * time.Second.

Definition readToken : string :=
  tokenOf (GenerateJWTToken defaultAuthenticator issuedAt "jti-1" "u1" ["user"] ["read"]).

Definition writeToken : string :=
  tokenOf (GenerateJWTToken defaultAuthenticator issuedAt "jti-2" "u2" ["user"] ["write"]).

(** One byte that is no UTF-8. *)
Definition notUTF8 : string := String (ascii_of_N 255) EmptyString.

Definition notUTF8Token : string :=
  tokenOf (GenerateJWTToken defaultAuthenticator issuedAt "jti-3" notUTF8 [] []).

(** A next handler that answers 200 with the user it finds in the context. *)
Definition echoUser : http.Handler any :=
  fun w r => Some (http.Write w (fst (GetUserID (http.Ctx r)))).

Lemma keyPair_defaultAuthenticator : keyPair defaultAuthenticator.
Proof. intros HRS. vm_compute in HRS. discriminate HRS. Qed.

(** The round trip of a token for [u1], verified an hour after it was
    issued. *)
Lemma VerifyJWTToken_roundtrip_witness :
  (exists tokenString,
     GenerateJWTToken defaultAuthenticator issuedAt "jti-1" "u1" ["user"] ["read"]
     = Some (Ok tokenString))
  /\ (forall tokenString,
        GenerateJWTToken defaultAuthenticator issuedAt "jti-1" "u1" ["user"] ["read"]
        = Some (Ok tokenString) ->
        exists claims,
          VerifyJWTToken defaultAuthenticator (issuedAt + time.Hour) tokenString
          = Some (Ok claims)
          /\ UserID claims = "u1"
          /\ jwt.Subject (RegisteredClaims claims) = "u1"
          /\ Roles claims = ["user"]
          /\ Scopes claims = ["read"]).
Proof.
  destruct (VerifyJWTToken_roundtrip defaultAuthenticator issuedAt "jti-1" "u1"
              ["user"] ["read"] (issuedAt + time.Hour)) as [Hissue Hverify].
  - exact keyPair_defaultAuthenticator.
  - reflexivity.
  - repeat constructor.
  - repeat constructor.
  - vm_compute. discriminate.
  - vm_compute. reflexivity.
  - split; [apply Hissue; reflexivity|exact Hverify].
Defined.

(** C1 fails for a subject that is not valid UTF-8: the token is issued
    and verifies, and the claims carry U+FFFD in place of the byte. *)
Lemma VerifyJWTToken_roundtrip_not_UTF8 :
  GenerateJWTToken defaultAuthenticator issuedAt "jti-3" notUTF8 [] []
  = Some (Ok notUTF8Token)
  /\ VerifyJWTToken defaultAuthenticator (issuedAt + time.Hour) notUTF8Token
     = Some (Ok (normClaims (newClaims defaultAuthenticator issuedAt "jti-3" notUTF8 [] [])))
  /\ UserID (normClaims (newClaims defaultAuthenticator issuedAt "jti-3" notUTF8 [] []))
     = json.RuneError
  /\ json.RuneError <> notUTF8.
Proof.
  split; [vm_compute; reflexivity|].
  split; [vm_compute; reflexivity|].
  split; [vm_compute; reflexivity|].
  vm_compute. discriminate.
Qed.

(** The expiry of a token issued at a whole second with a lifetime of 24
    hours: refused at the instant of the expiry and after it, accepted a
    nanosecond before it. *)
Lemma VerifyJWTToken_expiry_witness :
  expiresAt defaultAuthenticator issuedAt = issuedAt + 24 * time.Hour
  /\ VerifyJWTToken defaultAuthenticator (issuedAt + 24 * time.Hour) readToken
     = Some (Err ErrExpiredToken)
  /\ VerifyJWTToken defaultAuthenticator (issuedAt + 24 * time.Hour + 1) readToken
     = Some (Err ErrExpiredToken)
  /\ exists claims,
       VerifyJWTToken defaultAuthenticator (issuedAt + 24 * time.Hour - 1) readToken
       = Some (Ok claims).
Proof.
  assert (Hgen : GenerateJWTToken defaultAuthenticator issuedAt "jti-1" "u1" ["user"] ["read"]
                 = Some (Ok readToken)) by (vm_compute; reflexivity).
  destruct (VerifyJWTToken_expiry defaultAuthenticator issuedAt "jti-1" "u1" ["user"] ["read"]
              readToken (issuedAt + 24 * time.Hour) keyPair_defaultAuthenticator Hgen)
    as (_ & Hat & _ & _).
  destruct (VerifyJWTToken_expiry defaultAuthenticator issuedAt "jti-1" "u1" ["user"] ["read"]
              readToken (issuedAt + 24 * time.Hour + 1) keyPair_defaultAuthenticator Hgen)
    as (_ & _ & Hafter & _).
  destruct (VerifyJWTToken_expiry defaultAuthenticator issuedAt "jti-1" "u1" ["user"] ["read"]
              readToken (issuedAt + 24 * time.Hour - 1) keyPair_defaultAuthenticator Hgen)
    as (_ & _ & _ & Hbefore).
  split; [vm_compute; reflexivity|].
  split; [apply Hat; vm_compute; discriminate|].
  split; [apply Hafter; vm_compute; discriminate|].
  apply Hbefore; [vm_compute; discriminate|vm_compute; reflexivity].
Defined.

(** C2 fails at the boundary: a token issued at [issuedAt] with a
    lifetime of 24 hours is refused, as expired, at exactly [issuedAt]
    plus 24 hours. *)
Lemma VerifyJWTToken_at_expiry :
  GenerateJWTToken defaultAuthenticator issuedAt "jti-1" "u1" ["user"] ["read"]
  = Some (Ok readToken)
  /\ jwtExpiration defaultAuthenticator = 24 * time.Hour
  /\ VerifyJWTToken defaultAuthenticator (issuedAt + 24 * time.Hour) readToken
     = Some (Err ErrExpiredToken).
Proof.
  split; [vm_compute; reflexivity|].
  split; [reflexivity|].
  vm_compute. reflexivity.
Qed.

(** The dates of the claims under the default configuration. *)
Lemma newClaims_dates_witness :
  exists iat exp,
    jwt.IssuedAt (RegisteredClaims
      (newClaims defaultAuthenticator (issuedAt + 5) "jti-1" "u1" ["user"] ["read"]))
    = Some iat
    /\ jwt.ExpiresAt (RegisteredClaims
      (newClaims defaultAuthenticator (issuedAt + 5) "jti-1" "u1" ["user"] ["read"]))
    = Some exp
    /\ jwt.Time iat = issuedAt
    /\ jwt.Time iat < jwt.Time exp
    /\ jwt.Time exp = jwt.Time iat + 24 * time.Hour.
Proof.
  destruct (newClaims_dates defaultAuthenticator (issuedAt + 5) "jti-1" "u1" ["user"] ["read"])
    as (iat & exp & Hiat & _ & Hexp & Htrunc & _ & Hlt & Heq & _).
  exists iat, exp.
  split; [exact Hiat|]. split; [exact Hexp|].
  split; [rewrite Htrunc; vm_compute; reflexivity|].
  split; [apply Hlt; vm_compute; discriminate|].
  apply (Heq (24 * 3600)). vm_compute. reflexivity.
Defined.

(** C8 fails when the lifetime is not at least a second: with the zero
    value of the configuration, which [NewAuthenticator] accepts, the
    claims expire at the instant they are issued at. *)
Lemma newClaims_zero_lifetime :
  NewAuthenticator zeroConfig = Ok (authenticatorOf zeroConfig)
  /\ jwt.ExpiresAt (RegisteredClaims
       (newClaims (authenticatorOf zeroConfig) issuedAt "jti-1" "u1" [] []))
     = jwt.IssuedAt (RegisteredClaims
       (newClaims (authenticatorOf zeroConfig) issuedAt "jti-1" "u1" [] []))
  /\ ~ (forall (a : Authenticator) now id userID roles scopes iat exp,
          jwt.IssuedAt (RegisteredClaims (newClaims a now id userID roles scopes)) = Some iat ->
          jwt.ExpiresAt (RegisteredClaims (newClaims a now id userID roles scopes)) = Some exp ->
          jwt.Time iat < jwt.Time exp /\ jwt.Time exp = jwt.Time iat + jwtExpiration a).
Proof.
  split; [reflexivity|]. split; [vm_compute; reflexivity|].
  intros Hall.
  destruct (Hall (authenticatorOf zeroConfig) issuedAt "jti-1" "u1" [] [] _ _
              eq_refl eq_refl) as [Hlt _].
  vm_compute in Hlt. discriminate Hlt.
Qed.

(** The four rejections of the JWT middleware on the route that requires
    [read], an hour after the tokens were issued and, for the expired
    token, two days after. *)
Lemma JWTAuthMiddleware_rejects_witness :
  JWTAuthMiddleware defaultAuthenticator ["read"] echoUser (issuedAt + time.Hour)
    http.NewRecorder (requestWith None [])
  = Some (http.Error http.NewRecorder "Unauthorized" 401)
  /\ JWTAuthMiddleware defaultAuthenticator ["read"] echoUser (issuedAt + 48 * time.Hour)
       http.NewRecorder (requestWith (Some ("Bearer " ++ readToken)) [])
     = Some (http.Error http.NewRecorder "Token expired" 401)
  /\ JWTAuthMiddleware defaultAuthenticator ["read"] echoUser (issuedAt + time.Hour)
       http.NewRecorder (requestWith (Some "Bearer abc") [])
     = Some (http.Error http.NewRecorder "Unauthorized" 401)
  /\ JWTAuthMiddleware defaultAuthenticator ["read"] echoUser (issuedAt + time.Hour)
       http.NewRecorder (requestWith (Some ("Bearer " ++ writeToken)) [])
     = Some (http.Error http.NewRecorder "Forbidden: insufficient scope" 403)
  /\ http.Code (http.Error http.NewRecorder "Unauthorized" 401) = Some 401
  /\ http.Body (http.Error http.NewRecorder "Unauthorized" 401)
     = "Unauthorized" ++ http.newline.
Proof.
  destruct (JWTAuthMiddleware_rejects defaultAuthenticator ["read"] echoUser
              (issuedAt + time.Hour) http.NewRecorder (requestWith None []))
    as (Hmissing & _ & _ & _ & _ & Hfresh).
  destruct (JWTAuthMiddleware_rejects defaultAuthenticator ["read"] echoUser
              (issuedAt + 48 * time.Hour) http.NewRecorder
              (requestWith (Some ("Bearer " ++ readToken)) []))
    as (_ & Hexpired & _).
  destruct (JWTAuthMiddleware_rejects defaultAuthenticator ["read"] echoUser
              (issuedAt + time.Hour) http.NewRecorder (requestWith (Some "Bearer abc") []))
    as (_ & _ & Hinvalid & _).
  destruct (JWTAuthMiddleware_rejects defaultAuthenticator ["read"] echoUser
              (issuedAt + time.Hour) http.NewRecorder
              (requestWith (Some ("Bearer " ++ writeToken)) []))
    as (_ & _ & _ & Hscope & _).
  split; [apply (Hmissing ErrMissingToken); vm_compute; reflexivity|].
  split; [apply (Hexpired readToken); vm_compute; reflexivity|].
  split.
  { apply (Hinvalid "abc" ErrInvalidToken);
      [vm_compute; reflexivity|vm_compute; reflexivity|discriminate]. }
  split.
  { apply (Hscope writeToken
             (normClaims (newClaims defaultAuthenticator issuedAt "jti-2" "u2"
                            ["user"] ["write"])));
      vm_compute; reflexivity. }
  apply (Hfresh eq_refl "Unauthorized" 401).
Defined.

(** A token that fails verification without an error.  Its header
    announces RS256, its claims are those of a token for [u1], its third
    segment is any text: nobody needs a key to write it. *)
Definition rs256Token : string :=
  jwt.SigningString
    (jwt.NewWithClaims jwt.SigningMethodRS256
       (newClaims defaultAuthenticator issuedAt "jti-1" "u1" ["user"] ["read"]))
  ++ "." ++ EncodeSegment "anything".

Definition rs256Request : http.Request any :=
  requestWith (Some ("Bearer " ++ rs256Token)) [].

(** C4.  Not every request the JWT middleware turns away is answered 401
    or 403.  Under the default configuration of the server, which has no
    RSA public key, the request [rs256Request] carries a well-formed
    bearer token: the extraction succeeds.  The verification of the token
    returns neither claims nor an error: the key function hands the nil
    public key to the RSA verification, which panics.  The middleware
    therefore panics too, at every instant, for every list of required
    scopes, every next handler and every writer: it writes no response,
    in particular not [http.Error(w, "Unauthorized", 401)], the answer
    the mapping gives for a verification failure other than an expired
    token. *)
Theorem JWTAuthMiddleware_panics :
  jwtPublicKey defaultAuthenticator = None
  /\ ExtractBearerToken rs256Request = Ok rs256Token
  /\ (forall now, VerifyJWTToken defaultAuthenticator now rs256Token = None)
  /\ (forall requiredScopes next now w,
        JWTAuthMiddleware defaultAuthenticator requiredScopes next now w rs256Request = None)
  /\ (forall requiredScopes next now w,
        JWTAuthMiddleware defaultAuthenticator requiredScopes next now w rs256Request
        <> Some (http.Error w "Unauthorized" 401)).
Proof.
  assert (Hextract : ExtractBearerToken rs256Request = Ok rs256Token)
    by (vm_compute; reflexivity).
  assert (Hverify : forall now, VerifyJWTToken defaultAuthenticator now rs256Token = None)
    by (intros now; vm_compute; reflexivity).
  assert (Hpanic : forall requiredScopes next now w,
             JWTAuthMiddleware defaultAuthenticator requiredScopes next now w rs256Request
             = None).
  { intros requiredScopes next now w. unfold JWTAuthMiddleware.
    rewrite Hextract, Hverify. reflexivity. }
  split; [reflexivity|]. split; [exact Hextract|]. split; [exact Hverify|].
  split; [exact Hpanic|].
  intros requiredScopes next now w. rewrite Hpanic. discriminate.
Qed.

(** The end to end case of the specification: a token for [u1] with the
    scope [read], on the route that requires [read]. *)
Lemma JWTAuthMiddleware_authorized_witness :
  let claims := normClaims (newClaims defaultAuthenticator issuedAt "jti-1" "u1"
                              ["user"] ["read"]) in
  let r := requestWith (Some ("Bearer " ++ readToken)) [] in
  let r' := http.WithContext r (jwtContext [] claims) in
  JWTAuthMiddleware defaultAuthenticator ["read"] echoUser (issuedAt + time.Hour)
    http.NewRecorder r = echoUser http.NewRecorder r'
  /\ GetClaims (http.Ctx r') = (Some claims, true)
  /\ GetScopes (http.Ctx r') = (["read"], true)
  /\ GetUserID (http.Ctx r') = ("u1", true)
  /\ echoUser http.NewRecorder r'
     = Some {| http.Code := Some 200; http.HeaderMap := ∅; http.Body := "u1" |}.
Proof.
  intros claims r r'.
  destruct (JWTAuthMiddleware_authorized defaultAuthenticator ["read"] echoUser
              (issuedAt + time.Hour) http.NewRecorder r readToken claims)
    as (Hnext & _ & _ & _ & _ & Hclaims & Hscopes & Huser & _).
  - vm_compute. reflexivity.
  - vm_compute. reflexivity.
  - vm_compute. reflexivity.
  - split; [exact Hnext|]. split; [exact Hclaims|]. split; [exact Hscopes|].
    split; [exact Huser|]. reflexivity.
Defined.

(** A configuration that names a method the package does not know. *)
Definition es256Config : AuthConfig :=
  {| JWTSecret := JWTSecret defaultConfig;
     JWTPrivateKey := None; JWTPublicKey := None;
     JWTSigningMethod := "ES256";
     JWTExpirationTime := JWTExpirationTime defaultConfig;
     JWTIssuer := JWTIssuer defaultConfig;
     OAuth2ClientID := ""; OAuth2ClientSecret := ""; OAuth2RedirectURL := "";
     OAuth2AuthURL := ""; OAuth2TokenURL := ""; OAuth2Scopes := [] |}.

Lemma NewAuthenticator_fallback_witness :
  exists a,
    NewAuthenticator es256Config = Ok a
    /\ jwtSigningMethod a = jwt.SigningMethodHS256
    /\ exists tokenString claims,
         GenerateJWTToken a issuedAt "jti-1" "u1" ["user"] ["read"] = Some (Ok tokenString)
         /\ VerifyJWTToken defaultAuthenticator (issuedAt + time.Hour) tokenString
            = Some (Ok claims).
Proof.
  destruct (NewAuthenticator_fallback es256Config) as (a & Hnew & Hmethod & _ & Hsign).
  - unfold knownSigningMethods.
    repeat (apply not_elem_of_cons; split; [discriminate|]). apply not_elem_of_nil.
  - exists a. split; [exact Hnew|]. split; [exact Hmethod|].
    destruct (Hsign issuedAt "jti-1" "u1" ["user"] ["read"]) as [_ Hgen].
    eexists. exists (normClaims (newClaims defaultAuthenticator issuedAt "jti-1" "u1"
                               ["user"] ["read"])).
    split; [exact Hgen|].
    injection Hnew as <-. vm_compute. reflexivity.
Defined.

(** The OAuth2 middleware on the routes of the server: no header, and any
    bearer token at all on the route that requires [read]. *)
Lemma OAuth2AuthMiddleware_stub_witness :
  OAuth2AuthMiddleware defaultAuthenticator ["read"] echoUser http.NewRecorder
    (requestWith None [])
  = Some (http.Error http.NewRecorder "Unauthorized" 401)
  /\ OAuth2AuthMiddleware defaultAuthenticator ["read"] echoUser http.NewRecorder
       (requestWith (Some "Bearer anything") [])
     = Some {| http.Code := Some 200; http.HeaderMap := ∅; http.Body := "oauth2-user-123" |}
  /\ forall next,
       OAuth2AuthMiddleware defaultAuthenticator ["delete"] next http.NewRecorder
         (requestWith (Some "Bearer anything") [])
       = Some (http.Error http.NewRecorder "Forbidden: insufficient scope" 403).
Proof.
  destruct (OAuth2AuthMiddleware_stub defaultAuthenticator ["read"] echoUser
              http.NewRecorder (requestWith None [])) as (Hmissing & _ & _).
  destruct (OAuth2AuthMiddleware_stub defaultAuthenticator ["read"] echoUser
              http.NewRecorder (requestWith (Some "Bearer anything") []))
    as (_ & Hpass & _).
  destruct (OAuth2AuthMiddleware_stub defaultAuthenticator ["delete"] echoUser
              http.NewRecorder (requestWith (Some "Bearer anything") []))
    as (_ & _ & Hdeny).
  split; [apply (Hmissing ErrMissingToken); reflexivity|].
  split.
  - destruct (Hpass "anything") as (-> & _ & _); [reflexivity| |reflexivity].
    right. left. constructor.
  - apply (Hdeny "anything"); [reflexivity|].
    intros [Hnil|[Hin|Hin]]; [discriminate| |];
      apply elem_of_cons in Hin as [Heq|Hin]; try discriminate; inversion Hin.
Defined.

(** C9 fails on a route whose required scopes are neither [read] nor
    [write]: the request carries a bearer token, and the middleware
    answers 403 without calling the next handler, which would have
    answered 200. *)
Lemma OAuth2AuthMiddleware_forbidden :
  let r := requestWith (Some "Bearer anything") [] in
  ExtractBearerToken r = Ok "anything"
  /\ OAuth2AuthMiddleware defaultAuthenticator ["admin"] echoUser http.NewRecorder r
     = Some (http.Error http.NewRecorder "Forbidden: insufficient scope" 403)
  /\ http.Code (http.Error http.NewRecorder "Forbidden: insufficient scope" 403) = Some 403
  /\ OAuth2AuthMiddleware defaultAuthenticator ["admin"] echoUser http.NewRecorder r
     <> echoUser http.NewRecorder (http.WithContext r (oauth2Context (http.Ctx r))).
Proof.
  intros r. split; [reflexivity|]. split; [reflexivity|]. split; [reflexivity|].
  intros Heq. apply (f_equal (fmap http.Code)) in Heq. vm_compute in Heq.
  discriminate Heq.
Qed.

(** Some claims an earlier stage may have attached. *)
Definition earlierClaims : Claims :=
  newClaims defaultAuthenticator issuedAt "jti-1" "u1" ["user"] ["read"].

(** The contexts around the OAuth2 middleware: one that came without
    claims, one in which the JWT middleware ran before. *)
Lemma OAuth2AuthMiddleware_claims_witness :
  let r := requestWith (Some "Bearer anything") [] in
  let r' := http.WithContext r (oauth2Context (http.Ctx r)) in
  OAuth2AuthMiddleware defaultAuthenticator ["read"] echoUser http.NewRecorder r
  = echoUser http.NewRecorder r'
  /\ GetScopes (http.Ctx r') = (["read"; "write"], true)
  /\ GetUserID (http.Ctx r') = ("oauth2-user-123", true)
  /\ GetClaims (http.Ctx r') = (None, false).
Proof.
  intros r r'.
  destruct (OAuth2AuthMiddleware_claims defaultAuthenticator ["read"] echoUser
              http.NewRecorder r "anything") as (Hnext & _ & _ & _ & _ & _ & Habsent).
  - reflexivity.
  - reflexivity.
  - split; [exact Hnext|]. split; [reflexivity|]. split; [reflexivity|].
    apply Habsent. reflexivity.
Defined.

(** C10 fails for a request that reaches the OAuth2 middleware with
    claims in its context: the middleware lets it through, and
    [GetClaims] finds these claims in the context of the next handler. *)
Lemma OAuth2AuthMiddleware_keeps_claims :
  let ctx := context.WithValue context.Background ClaimsContextKey (any_Claims earlierClaims) in
  let r := requestWith (Some "Bearer anything") ctx in
  let r' := http.WithContext r (oauth2Context (http.Ctx r)) in
  (forall next,
     OAuth2AuthMiddleware defaultAuthenticator ["read"] next http.NewRecorder r
     = next http.NewRecorder r')
  /\ GetUserID (http.Ctx r') = ("oauth2-user-123", true)
  /\ GetClaims (http.Ctx r') = (Some earlierClaims, true).
Proof.
  intros ctx r r'. split; [intros next; reflexivity|]. split; reflexivity.
Qed.

(** * More of the package and of its callers

    The rest of [internal/auth/auth.go] that runs without a network
    ([ExtractBasicAuth]), and the handler of [internal/handlers] that the
    server puts behind the two middlewares and that reads what they
    attach ([UserProfileHandler], with [RespondJSON], [RespondError] and
    the profile of [internal/service]). *)

(** [strings.SplitN(s, sep, 2)] for a separator of one byte: [s] cut at
    its first separator, or [s] alone when it has none. *)
Fixpoint SplitN2 (s : string) (sep : ascii) : list string :=
  match s with
  | EmptyString => [EmptyString]
  | String c rest =>
      if Ascii.eqb c sep then [EmptyString; rest]
      else match SplitN2 rest sep with
           | piece :: pieces => String c piece :: pieces
           | [] => [String c EmptyString]
           end
  end.

(** The alphabet of [base64.StdEncoding], with its padding. *)
Definition stdAlphabet : string :=
  "ABCDEFGHIJKLMNOPQRSTUVWXYZabcdefghijklmnopqrstuvwxyz0123456789+/=".

(** [base64.StdEncoding]: [EncodeToString] and [DecodeString] ([None] is
    the error of the latter). *)
Class StdBase64 := {
  StdEncodeToString : string -> string;
  StdDecodeString : string -> option string;
  StdDecodeString_EncodeToString :
    forall s, StdDecodeString (StdEncodeToString s) = Some s;
  StdEncodeToString_alphabet :
    forall s, allIn stdAlphabet (StdEncodeToString s) = true
}.

(** [BasicAuth] *)
Record BasicAuth := { Username : string; Password : string }.

(** [ExtractBasicAuth] *)
Definition ExtractBasicAuth `{StdBase64} (r : http.Request any) : result BasicAuth :=
  let authHeader := http.Get (http.ReqHeader r) "Authorization" in
  if String.eqb authHeader "" then Err ErrMissingToken
  else
    match gostrings.Split authHeader " " with
    | [p0; p1] =>
        if negb (String.eqb p0 "Basic") then Err ErrInvalidToken
        else
          match StdDecodeString p1 with
          | None => Err ErrInvalidToken
          | Some payload =>
              match SplitN2 payload ":" with
              | [username; password] =>
                  Ok {| Username := username; Password := password |}
              | _ => Err ErrInvalidToken
              end
          end
    | _ => Err ErrInvalidToken
    end.

Module models.

(** [models.UserProfile] *)
Record UserProfile := {
  ID : string;
  Username : string;
  Email : string;
  Roles : list string;
  Scopes : list string
}.

Definition normUserProfile (p : UserProfile) : UserProfile :=
  {| ID := json.coerce (ID p);
     Username := json.coerce (Username p);
     Email := json.coerce (Email p);
     Roles := json.coerce <$> Roles p;
     Scopes := json.coerce <$> Scopes p |}.

End models.

Module service.

(** [Service.GetUserProfile]: the mock profile of a user; its error is
    always nil. *)
Definition GetUserProfile (userID : string) : result models.UserProfile :=
  Ok {| models.ID := userID;
        models.Username := "user" ++ userID;
        models.Email := "user" ++ userID ++ "@example.com";
        models.Roles := ["user"];
        models.Scopes := ["read"; "write"] |}.

End service.

Module handlers.

Definition StatusInternalServerError : Z := 500.

(** [handlers.ErrorResponse] *)
Record ErrorResponse := {
  Status : Z;
  Message : string;
  Error : string
}.

Definition normErrorResponse (e : ErrorResponse) : ErrorResponse :=
  {| Status := Status e;
     Message := json.coerce (Message e);
     Error := json.coerce (Error e) |}.

(** [w.Header().Set(key, value)] *)
Definition setHeader (w : http.ResponseWriter) (key value : string) : http.ResponseWriter :=
  {| http.Code := http.Code w;
     http.HeaderMap := <[key := [value]]> (http.HeaderMap w);
     http.Body := http.Body w |}.

(** The key [UserProfileHandler] looks the user up with: the string
    [user_id] as a plain [string], not as an [auth.ContextKey]. *)
Definition userIDKey : context.Key :=
  {| context.KeyType := "string"; context.KeyName := "user_id" |}.

Section Handlers.
Context `{!JSON ErrorResponse normErrorResponse}
        `{!JSON models.UserProfile models.normUserProfile}.

(** [RespondJSON], for a payload whose [json.Marshal] cannot fail. *)
Definition RespondJSON {P : Type} {norm : P -> P} `{!JSON P norm}
    (w : http.ResponseWriter) (status : Z) (payload : P) : http.ResponseWriter :=
  let response := Marshal payload in
  let w := setHeader w "Content-Type" "application/json" in
  let w := http.WriteHeader w status in
  http.Write w response.

(** [RespondError]; [err] is [None] for a nil error and its message
    otherwise. *)
Definition RespondError (w : http.ResponseWriter) (status : Z) (message : string)
    (err : option string) : http.ResponseWriter :=
  let errorMsg := match err with Some e => e | None => "" end in
  let response := {| Status := status; Message := message; Error := errorMsg |} in
  RespondJSON w status response.

(** [UserProfileHandler] *)
Definition UserProfileHandler : http.Handler any :=
  fun w r =>
    let ctx := http.Ctx r in
    match context.Value ctx userIDKey with
    | Some (any_string userID) =>
        match service.GetUserProfile userID with
        | Err _ =>
            Some (RespondError w StatusInternalServerError "Failed to get user profile" None)
        | Ok profile => Some (RespondJSON w http.StatusOK profile)
        end
    | _ => Some (RespondError w StatusInternalServerError "User ID not found" None)
    end.

End Handlers.

End handlers.

(** The instances of [Reference] for these. *)
Module ReferenceHandlers.

Definition profileFields (p : models.UserProfile) : list (list string) :=
  [ [models.ID p]; [models.Username p]; [models.Email p]; models.Roles p; models.Scopes p ].

Definition fieldsProfile (l : list (list string)) : option models.UserProfile :=
  match l with
  | [ [id]; [username]; [email]; roles; scopes ] =>
      Some (models.Build_UserProfile id username email roles scopes)
  | _ => None
  end.

Definition errorFields (e : handlers.ErrorResponse) : Z * (string * string) :=
  (handlers.Status e, (handlers.Message e, handlers.Error e)).

Definition fieldsError (t : Z * (string * string)) : handlers.ErrorResponse :=
  handlers.Build_ErrorResponse (fst t) (fst (snd t)) (snd (snd t)).

Lemma Unmarshal_Marshal_UserProfile p :
  Reference.read (Reference.write (profileFields (models.normUserProfile p)))
    ≫= fieldsProfile = Some (models.normUserProfile p).
Proof. rewrite Reference.read_write. destruct p; reflexivity. Qed.

Lemma Unmarshal_Marshal_ErrorResponse e :
  fieldsError <$> Reference.read (Reference.write (errorFields (handlers.normErrorResponse e)))
  = Some (handlers.normErrorResponse e).
Proof. rewrite Reference.read_write. destruct e; reflexivity. Qed.

#[global] Instance ref_json_UserProfile : JSON models.UserProfile models.normUserProfile := {|
  Marshal p := Reference.write (profileFields (models.normUserProfile p));
  Unmarshal s := Reference.read s ≫= fieldsProfile;
  Unmarshal_Marshal := Unmarshal_Marshal_UserProfile
|}.

#[global] Instance ref_json_ErrorResponse
  : JSON handlers.ErrorResponse handlers.normErrorResponse := {|
  Marshal e := Reference.write (errorFields (handlers.normErrorResponse e));
  Unmarshal s := fieldsError <$> Reference.read s;
  Unmarshal_Marshal := Unmarshal_Marshal_ErrorResponse
|}.

Lemma hexEncode_stdAlphabet s : allIn stdAlphabet (Reference.hexEncode s) = true.
Proof.
  induction s as [|c rest IH]; [reflexivity|].
  cbn [Reference.hexEncode allIn]. rewrite IH.
  destruct c as [[] [] [] [] [] [] [] []]; reflexivity.
Qed.

#[global] Instance ref_std : StdBase64 := {|
  StdEncodeToString := Reference.hexEncode;
  StdDecodeString := Reference.hexDecode;
  StdDecodeString_EncodeToString := Reference.hexDecode_hexEncode;
  StdEncodeToString_alphabet := hexEncode_stdAlphabet
|}.

End ReferenceHandlers.

(** * Properties of the rest *)

Lemma SplitN2_cut a b sep :
  gostrings.Contains a sep = false -> SplitN2 (a ++ String sep b) sep = [a; b].
Proof.
  induction a as [|c rest IH]; intros Ha.
  - change (EmptyString ++ String sep b) with (String sep b). simpl.
    rewrite Ascii.eqb_refl. reflexivity.
  - rewrite string_app_cons. simpl in *.
    apply orb_false_iff in Ha as [Hc Hrest]. rewrite Hc, (IH Hrest). reflexivity.
Qed.

Lemma SplitN2_two s sep a b :
  SplitN2 s sep = [a; b] <-> s = a ++ String sep b /\ gostrings.Contains a sep = false.
Proof.
  split; [|intros [-> Ha]; apply SplitN2_cut, Ha].
  revert a. induction s as [|c rest IH]; intros a; simpl; [discriminate|].
  destruct (Ascii.eqb_spec c sep) as [->|Hne].
  - intros [= <- <-]. split; reflexivity.
  - destruct (SplitN2 rest sep) as [|p [|q [|x xs]]] eqn:Hrest; try discriminate.
    intros [= <- <-]. destruct (IH p eq_refl) as [-> Hp]. split; [reflexivity|].
    simpl. rewrite Hp, orb_false_r. apply Ascii.eqb_neq, Hne.
Qed.

Section MoreProperties.
Context `{Crypto} `{Base64} `{!JSON Claims normClaims} `{!JSON jwt.Header jwt.normHeader}
        `{StdBase64}
        `{!JSON handlers.ErrorResponse handlers.normErrorResponse}
        `{!JSON models.UserProfile models.normUserProfile}.

(** The signature of a token was checked with the keys of [a]: the token
    is three segments, the first two decode to a header and to [claims],
    the header names [method], and the third segment is the HMAC of the
    first two under the secret, or an RSA signature of them that the
    public key accepts. *)
Definition signatureChecked (a : Authenticator) (tokenString : string)
    (claims : Claims) (method : jwt.SigningMethod) : Prop :=
  exists p0 p1 p2 header sig,
    gostrings.Split tokenString "." = [p0; p1; p2]
    /\ DecodeSegment p0 ≫= Unmarshal (C:=jwt.Header) = Some header
    /\ jwt.alg header ≫= jwt.GetSigningMethod = Some method
    /\ DecodeSegment p1 ≫= Unmarshal (C:=Claims) = Some claims
    /\ DecodeSegment p2 = Some sig
    /\ match method with
       | jwt.SigningMethodHMAC h => sig = hmac_Sum h (jwtSecret a) (p0 ++ "." ++ p1)
       | jwt.SigningMethodRSA h =>
           exists pub, jwtPublicKey a = Some pub
                       /\ rsa_VerifyPKCS1v15 pub h (p0 ++ "." ++ p1) sig = true
       | _ => False
       end.

(** What [VerifyJWTToken] answers once the signature was checked: the
    claims when the validator finds nothing, [ErrExpiredToken] when it
    finds the token expired, [ErrInvalidToken] otherwise. *)
Definition afterSignature (now : time.Time) (claims : Claims) : result Claims :=
  match jwt.Validate now claims with
  | [] => Ok claims
  | errs =>
      if jwt.errors_Is (jwt.ErrTokenInvalidClaims :: errs) jwt.ErrTokenExpired
      then Err ErrExpiredToken else Err ErrInvalidToken
  end.

(** Every run of [VerifyJWTToken] is one of three: the signature was
    checked and the validator decides; or the token is refused as
    invalid; or the call panics. *)
Lemma VerifyJWTToken_cases a now tokenString :
  (exists claims method,
     signatureChecked a tokenString claims method
     /\ VerifyJWTToken a now tokenString = Some (afterSignature now claims))
  \/ VerifyJWTToken a now tokenString = Some (Err ErrInvalidToken)
  \/ (VerifyJWTToken a now tokenString = None /\ jwtPublicKey a = None).
Proof.
  unfold VerifyJWTToken, jwt.ParseWithClaims, jwt.ParseUnverified.
  destruct (gostrings.Split tokenString ".") as [|p0 [|p1 [|p2 [|p3 ps]]]] eqn:Hsplit;
    try (right; left; reflexivity).
  destruct (DecodeSegment p0 ≫= Unmarshal (C:=jwt.Header)) as [header|] eqn:Hheader;
    [|right; left; reflexivity].
  destruct (DecodeSegment p1 ≫= Unmarshal (C:=Claims)) as [claims|] eqn:Hclaims;
    [|right; left; reflexivity].
  destruct (jwt.alg header ≫= jwt.GetSigningMethod) as [method|] eqn:Hmethod;
    [|right; left; reflexivity].
  destruct (DecodeSegment p2) as [sig|] eqn:Hsig; [|right; left; reflexivity].
  unfold keyFunc. cbn [jwt.Method jwt.TokenClaims jwt.Raw jwt.TokenHeader].
  destruct method as [h|h|h|name]; try (right; left; reflexivity).
  - cbn [jwt.Verify].
    destruct (bool_decide (sig = hmac_Sum h (jwtSecret a) (p0 ++ "." ++ p1))) eqn:Hmac;
      [|right; left; reflexivity].
    apply bool_decide_eq_true in Hmac. left. exists claims, (jwt.SigningMethodHMAC h).
    split.
    + exists p0, p1, p2, header, sig. auto 10.
    + unfold afterSignature. destruct (jwt.Validate now claims) as [|e errs];
        [reflexivity|]. destruct (jwt.errors_Is _ _); reflexivity.
  - cbn [jwt.Verify]. destruct (jwtPublicKey a) as [pub|] eqn:Hpub; [|right; right; auto].
    destruct (rsa_VerifyPKCS1v15 pub h (p0 ++ "." ++ p1) sig) eqn:Hrsa;
      [|right; left; reflexivity].
    left. exists claims, (jwt.SigningMethodRSA h). split.
    + exists p0, p1, p2, header, sig. repeat (split; [assumption|]). exists pub. auto.
    + unfold afterSignature. destruct (jwt.Validate now claims) as [|e errs];
        [reflexivity|]. destruct (jwt.errors_Is _ _); reflexivity.
Qed.

Lemma GetSigningMethod_Some name m :
  jwt.GetSigningMethod name = Some m -> jwt.Alg m = name.
Proof.
  unfold jwt.GetSigningMethod. intros [_ Heq]%find_some.
  apply bool_decide_eq_true in Heq. exact Heq.
Qed.

Lemma Validate_nil now (claims : Claims) :
  jwt.Validate now claims = [] ->
  (forall exp, jwt.ExpiresAt (RegisteredClaims claims) = Some exp -> now < jwt.Time exp)
  /\ (forall nbf, jwt.NotBefore (RegisteredClaims claims) = Some nbf -> jwt.Time nbf <= now).
Proof.
  unfold jwt.Validate, jwt.verifyExpiresAt, jwt.verifyNotBefore, time.Before.
  cbn [jwt.GetExpirationTime jwt.GetNotBefore Claims_jwt_Claims].
  intros [Hexp Hnbf]%app_eq_nil. split.
  - intros exp Heq. rewrite Heq in Hexp.
    destruct (Z.ltb_spec now (jwt.Time exp)); [assumption|discriminate].
  - intros nbf Heq. rewrite Heq in Hnbf.
    destruct (Z.ltb_spec now (jwt.Time nbf)); [discriminate|assumption].
Qed.

Lemma Validate_expired now (claims : Claims) :
  jwt.ErrTokenExpired ∈ jwt.Validate now claims ->
  exists exp, jwt.ExpiresAt (RegisteredClaims claims) = Some exp /\ jwt.Time exp <= now.
Proof.
  unfold jwt.Validate, jwt.verifyExpiresAt, jwt.verifyNotBefore, time.Before.
  cbn [jwt.GetExpirationTime jwt.GetNotBefore Claims_jwt_Claims].
  intros [Hin|Hin]%elem_of_app.
  - destruct (jwt.ExpiresAt (RegisteredClaims claims)) as [exp|]; [|inversion Hin].
    exists exp. split; [reflexivity|].
    destruct (Z.ltb_spec now (jwt.Time exp)); [inversion Hin|assumption].
  - destruct (jwt.NotBefore (RegisteredClaims claims)) as [nbf|]; [|inversion Hin].
    destruct (negb (now <? jwt.Time nbf)); [inversion Hin|].
    apply list_elem_of_singleton in Hin. discriminate Hin.
Qed.

(** X1.  [VerifyJWTToken] accepts a token only after its signature was
    checked with the keys of the authenticator: the token is three
    segments, its header names an HMAC or an RSA method (never [none], an
    elliptic curve or a PSS method), its third segment is the HMAC of the
    first two under the secret or an RSA signature the configured public
    key accepts, the claims returned are those of the second segment, and
    at the instant of the check the token is not expired and not before
    its [nbf]. *)
Theorem VerifyJWTToken_sound a now tokenString claims :
  VerifyJWTToken a now tokenString = Some (Ok claims) ->
  (exists method,
     signatureChecked a tokenString claims method
     /\ (exists h, method = jwt.SigningMethodHMAC h \/ method = jwt.SigningMethodRSA h))
  /\ (forall exp, jwt.ExpiresAt (RegisteredClaims claims) = Some exp -> now < jwt.Time exp)
  /\ (forall nbf, jwt.NotBefore (RegisteredClaims claims) = Some nbf -> jwt.Time nbf <= now).
Proof.
  intros Hok.
  destruct (VerifyJWTToken_cases a now tokenString)
    as [(claims' & method & Hsig & Heq)|[Heq|[Heq _]]];
    rewrite Heq in Hok; try discriminate.
  unfold afterSignature in Hok.
  destruct (jwt.Validate now claims') as [|e errs] eqn:Hval.
  - injection Hok as <-. split; [|apply Validate_nil, Hval].
    exists method. split; [exact Hsig|].
    destruct Hsig as (p0 & p1 & p2 & header & sig & _ & _ & _ & _ & _ & Hm).
    destruct method as [h|h|h|name]; try contradiction; exists h; auto.
  - destruct (jwt.errors_Is _ _); discriminate.
Qed.

(** X2.  [VerifyJWTToken] answers [ErrExpiredToken] only for a token
    whose signature it has checked with the keys of the authenticator
    and whose [exp] claim is not after the instant of the check: a token
    that is forged or malformed is refused as invalid, whatever dates it
    carries. *)
Theorem VerifyJWTToken_expired_signed a now tokenString :
  VerifyJWTToken a now tokenString = Some (Err ErrExpiredToken) ->
  exists claims method exp,
    signatureChecked a tokenString claims method
    /\ jwt.ExpiresAt (RegisteredClaims claims) = Some exp
    /\ jwt.Time exp <= now.
Proof.
  intros Hexp.
  destruct (VerifyJWTToken_cases a now tokenString)
    as [(claims & method & Hsig & Heq)|[Heq|[Heq _]]];
    rewrite Heq in Hexp; try discriminate.
  unfold afterSignature in Hexp.
  destruct (jwt.Validate now claims) as [|e errs] eqn:Hval; [discriminate|].
  destruct (jwt.errors_Is _ _) eqn:His; [|discriminate].
  apply bool_decide_eq_true in His.
  apply elem_of_cons in His as [Hne|His]; [discriminate|].
  rewrite <- Hval in His. destruct (Validate_expired _ _ His) as (exp & Hsome & Hle).
  exists claims, method, exp. auto.
Qed.

(** X3.  A string that is not three segments around two dots (the empty
    string, a token cut short, one with a fourth segment) and a token
    whose header names a method outside the HMAC and RSA families are
    refused by [VerifyJWTToken] with [ErrInvalidToken], at any instant
    and under any keys: never a panic, never another error. *)
Theorem VerifyJWTToken_malformed a now tokenString :
  ((forall p0 p1 p2, gostrings.Split tokenString "." <> [p0; p1; p2]) ->
   VerifyJWTToken a now tokenString = Some (Err ErrInvalidToken))
  /\ (forall p0 p1 p2 header,
        gostrings.Split tokenString "." = [p0; p1; p2] ->
        DecodeSegment p0 ≫= Unmarshal (C:=jwt.Header) = Some header ->
        (forall h, jwt.alg header <> Some ("HS" ++ jwt.bits h)
                   /\ jwt.alg header <> Some ("RS" ++ jwt.bits h)) ->
        VerifyJWTToken a now tokenString = Some (Err ErrInvalidToken)).
Proof.
  split.
  - intros Hno.
    destruct (VerifyJWTToken_cases a now tokenString)
      as [(claims & method & Hsig & _)|[Heq|[Heq _]]]; [|exact Heq|].
    + destruct Hsig as (p0 & p1 & p2 & _ & _ & Hsplit & _). destruct (Hno _ _ _ Hsplit).
    + exfalso. unfold VerifyJWTToken, jwt.ParseWithClaims, jwt.ParseUnverified in Heq.
      destruct (gostrings.Split tokenString ".") as [|p0 [|p1 [|p2 [|p3 ps]]]] eqn:Hsplit;
        try discriminate.
      destruct (Hno _ _ _ eq_refl).
  - intros p0 p1 p2 header Hsplit Hheader Halg.
    unfold VerifyJWTToken, jwt.ParseWithClaims, jwt.ParseUnverified.
    rewrite Hsplit, Hheader.
    destruct (DecodeSegment p1 ≫= Unmarshal (C:=Claims)) as [claims|]; [|reflexivity].
    destruct (jwt.alg header ≫= jwt.GetSigningMethod) as [method|] eqn:Hmethod;
      [|reflexivity].
    destruct (DecodeSegment p2) as [sig|]; [|reflexivity].
    unfold keyFunc. cbn [jwt.Method].
    destruct method as [h|h|h|name]; try reflexivity; exfalso.
    + destruct (jwt.alg header) as [name|] eqn:Hname; [|discriminate].
      apply GetSigningMethod_Some in Hmethod.
      destruct (Halg h) as [Hhs _]. apply Hhs. rewrite <- Hmethod. reflexivity.
    + destruct (jwt.alg header) as [name|] eqn:Hname; [|discriminate].
      apply GetSigningMethod_Some in Hmethod.
      destruct (Halg h) as [_ Hrs]. apply Hrs. rewrite <- Hmethod. reflexivity.
Qed.

(** X4.  [NewAuthenticator] never fails and copies the secret, the keys,
    the issuer and the lifetime unchecked; for each of the six names it
    knows, the method it selects carries that name, so that the tokens of
    the authenticator announce the configured algorithm in their header;
    whatever the name, the method is one of the six. *)
Theorem NewAuthenticator_method (config : AuthConfig) :
  exists a,
    NewAuthenticator config = Ok a
    /\ jwtSecret a = JWTSecret config
    /\ jwtPrivateKey a = JWTPrivateKey config
    /\ jwtPublicKey a = JWTPublicKey config
    /\ jwtIssuer a = JWTIssuer config
    /\ jwtExpiration a = JWTExpirationTime config
    /\ (JWTSigningMethod config ∈ knownSigningMethods ->
        jwt.Alg (jwtSigningMethod a) = JWTSigningMethod config
        /\ forall claims : Claims,
             jwt.alg (jwt.TokenHeader (jwt.NewWithClaims (jwtSigningMethod a) claims))
             = Some (JWTSigningMethod config))
    /\ (isHS (jwtSigningMethod a) = true \/ isRS (jwtSigningMethod a) = true).
Proof.
  eexists. split; [reflexivity|]. do 5 (split; [reflexivity|]).
  cbn [jwtSigningMethod].
  destruct (String.eqb_spec (JWTSigningMethod config) "HS256") as [->|?];
    [split; [intros _; split; reflexivity|left; reflexivity]|].
  destruct (String.eqb_spec (JWTSigningMethod config) "HS384") as [->|?];
    [split; [intros _; split; reflexivity|left; reflexivity]|].
  destruct (String.eqb_spec (JWTSigningMethod config) "HS512") as [->|?];
    [split; [intros _; split; reflexivity|left; reflexivity]|].
  destruct (String.eqb_spec (JWTSigningMethod config) "RS256") as [->|?];
    [split; [intros _; split; reflexivity|right; reflexivity]|].
  destruct (String.eqb_spec (JWTSigningMethod config) "RS384") as [->|?];
    [split; [intros _; split; reflexivity|right; reflexivity]|].
  destruct (String.eqb_spec (JWTSigningMethod config) "RS512") as [->|?];
    [split; [intros _; split; reflexivity|right; reflexivity]|].
  split; [|left; reflexivity].
  intros Hin. exfalso. unfold knownSigningMethods in Hin.
  repeat (apply elem_of_cons in Hin as [?|Hin]; [contradiction|]). inversion Hin.
Qed.

(** X5.  On an authenticator that [NewAuthenticator] returned,
    [GenerateJWTToken] never answers that the signing method is
    unsupported: that branch cannot be reached.  When the configured
    method is not one of [RS256], [RS384], [RS512] it always returns a
    token; with one of these and no private key it panics. *)
Theorem GenerateJWTToken_supported (config : AuthConfig) a now id userID roles scopes :
  NewAuthenticator config = Ok a ->
  GenerateJWTToken a now id userID roles scopes <> Some (Err ErrUnsupportedSigningMethod)
  /\ (JWTSigningMethod config ∉ ["RS256"; "RS384"; "RS512"] ->
      exists tokenString,
        GenerateJWTToken a now id userID roles scopes = Some (Ok tokenString))
  /\ (JWTSigningMethod config ∈ ["RS256"; "RS384"; "RS512"] ->
      JWTPrivateKey config = None ->
      GenerateJWTToken a now id userID roles scopes = None).
Proof.
  intros Hnew.
  assert (Hcases :
    (isHS (jwtSigningMethod a) = true
     /\ JWTSigningMethod config ∉ ["RS256"; "RS384"; "RS512"])
    \/ (exists h, jwtSigningMethod a = jwt.SigningMethodRSA h
        /\ JWTSigningMethod config ∈ ["RS256"; "RS384"; "RS512"])).
  { unfold NewAuthenticator in Hnew. injection Hnew as <-. cbn [jwtSigningMethod].
    destruct (String.eqb_spec (JWTSigningMethod config) "HS256") as [->|?];
      [left; split; [reflexivity|]; intros Hin;
       repeat (apply elem_of_cons in Hin as [?|Hin]; [discriminate|]); inversion Hin|].
    destruct (String.eqb_spec (JWTSigningMethod config) "HS384") as [->|?];
      [left; split; [reflexivity|]; intros Hin;
       repeat (apply elem_of_cons in Hin as [?|Hin]; [discriminate|]); inversion Hin|].
    destruct (String.eqb_spec (JWTSigningMethod config) "HS512") as [->|?];
      [left; split; [reflexivity|]; intros Hin;
       repeat (apply elem_of_cons in Hin as [?|Hin]; [discriminate|]); inversion Hin|].
    destruct (String.eqb_spec (JWTSigningMethod config) "RS256") as [->|?];
      [right; eexists; split; [reflexivity|]; constructor|].
    destruct (String.eqb_spec (JWTSigningMethod config) "RS384") as [->|?];
      [right; eexists; split; [reflexivity|]; constructor; constructor|].
    destruct (String.eqb_spec (JWTSigningMethod config) "RS512") as [->|?];
      [right; eexists; split; [reflexivity|]; constructor; constructor; constructor|].
    left. split; [reflexivity|]. intros Hin.
    repeat (apply elem_of_cons in Hin as [?|Hin]; [contradiction|]). inversion Hin. }
  assert (Hpriv : jwtPrivateKey a = JWTPrivateKey config).
  { unfold NewAuthenticator in Hnew. injection Hnew as <-. reflexivity. }
  destruct Hcases as [[HHS Hnot]|(h & Hh & Hin)].
  - destruct (GenerateJWTToken_HMAC a now id userID roles scopes HHS) as [tokenString Hgen].
    rewrite Hgen. split; [discriminate|]. split; [eauto|]. intros Hin. contradiction.
  - unfold GenerateJWTToken, jwt.SignedString. cbn [jwt.Method jwt.NewWithClaims].
    rewrite Hh, isHS_RSA_false, isRS_RSA_true. cbn [jwt.Sign]. rewrite Hpriv.
    split; [|split].
    + destruct (JWTPrivateKey config) as [priv|]; [|discriminate].
      destruct (rsa_SignPKCS1v15 priv h _); discriminate.
    + intros Hnot. contradiction.
    + intros _ ->. reflexivity.
Qed.

(** The authenticator [a] with another signing method. *)
Definition withSigningMethod (a : Authenticator) (m : jwt.SigningMethod) : Authenticator :=
  {| jwtSigningMethod := m;
     jwtSecret := jwtSecret a;
     jwtPrivateKey := jwtPrivateKey a;
     jwtPublicKey := jwtPublicKey a;
     jwtIssuer := jwtIssuer a;
     jwtExpiration := jwtExpiration a;
     oauth2Config := oauth2Config a |}.

(** X6.  [VerifyJWTToken] does not read the signing method the
    authenticator was configured with: it picks the key by the algorithm
    the token announces.  So an authenticator of any configured method,
    RS256 for one, accepts the tokens that are signed with HS256, HS384
    or HS512 under its secret, such as the same configuration with
    another method issues. *)
Theorem VerifyJWTToken_any_method a m h now0 id userID roles scopes now :
  now0 <= now -> now < expiresAt a now0 ->
  (forall tokenString,
     VerifyJWTToken (withSigningMethod a m) now tokenString
     = VerifyJWTToken a now tokenString)
  /\ exists tokenString,
       GenerateJWTToken (withSigningMethod a (jwt.SigningMethodHMAC h)) now0 id userID
         roles scopes = Some (Ok tokenString)
       /\ VerifyJWTToken a now tokenString
          = Some (Ok (normClaims (newClaims a now0 id userID roles scopes))).
Proof.
  intros Hafter Hbefore. split; [reflexivity|].
  set (a' := withSigningMethod a (jwt.SigningMethodHMAC h)).
  destruct (GenerateJWTToken_HMAC a' now0 id userID roles scopes (isHS_HMAC_true h))
    as [tokenString Hgen].
  exists tokenString. split; [exact Hgen|].
  assert (Hkeys : keyPair a').
  { intros HRS. unfold a' in HRS. cbn [withSigningMethod jwtSigningMethod] in HRS.
    destruct h; discriminate HRS. }
  change (VerifyJWTToken a now tokenString) with (VerifyJWTToken a' now tokenString).
  rewrite (VerifyJWTToken_GenerateJWTToken _ _ _ _ _ _ _ now Hkeys Hgen).
  pose proof (notBefore_le now0) as Hnbf.
  change (expiresAt a' now0) with (expiresAt a now0).
  destruct (Z.ltb_spec now (expiresAt a now0)); [|lia].
  destruct (Z.ltb_spec now (notBefore now0)); [lia|]. reflexivity.
Qed.

(** X7.  An issued token at any instant of verification.  The three
    cases cover every instant: from its expiry on it is refused as
    expired, also at an instant before the second it was issued in (the
    validator then finds it both expired and not yet valid, and
    [errors.Is] finds the expiry); before its expiry and before the
    second it was issued in (a clock set back) it is refused as invalid;
    before its expiry and from the second it was issued in on it is
    accepted, with exactly the claims that were issued.  With a
    configured lifetime of zero or more, every instant before the second
    it was issued in gives the invalid-token error.  With a lifetime of
    zero or less no instant accepts it, and with a lifetime of minus one
    second or less it is refused as expired already from one second
    before the second it was issued in. *)
Theorem VerifyJWTToken_issued a now0 id userID roles scopes tokenString now :
  keyPair a ->
  GenerateJWTToken a now0 id userID roles scopes = Some (Ok tokenString) ->
  (expiresAt a now0 <= now ->
   VerifyJWTToken a now tokenString = Some (Err ErrExpiredToken))
  /\ (now < expiresAt a now0 -> now < notBefore now0 ->
      VerifyJWTToken a now tokenString = Some (Err ErrInvalidToken))
  /\ (now < expiresAt a now0 -> notBefore now0 <= now ->
      VerifyJWTToken a now tokenString
      = Some (Ok (normClaims (newClaims a now0 id userID roles scopes))))
  /\ (0 <= jwtExpiration a -> now < notBefore now0 ->
      VerifyJWTToken a now tokenString = Some (Err ErrInvalidToken))
  /\ (jwtExpiration a <= 0 ->
      forall claims, VerifyJWTToken a now tokenString <> Some (Ok claims))
  /\ (jwtExpiration a <= - time.Second -> notBefore now0 - time.Second <= now ->
      VerifyJWTToken a now tokenString = Some (Err ErrExpiredToken)).
Proof.
  intros Hkeys Hgen.
  rewrite (VerifyJWTToken_GenerateJWTToken _ _ _ _ _ _ _ now Hkeys Hgen).
  assert (Hdates : forall d, jwtExpiration a <= d ->
            expiresAt a now0 <= time.Truncate (now0 + d) time.Second).
  { intros d Hd. unfold expiresAt, jwt.NewNumericDate, jwt.TimePrecision, time.Add.
    cbn [jwt.Time]. apply Truncate_mono. lia. }
  assert (Hdates' : forall d, d <= jwtExpiration a ->
            time.Truncate (now0 + d) time.Second <= expiresAt a now0).
  { intros d Hd. unfold expiresAt, jwt.NewNumericDate, jwt.TimePrecision, time.Add.
    cbn [jwt.Time]. apply Truncate_mono. lia. }
  assert (Hnbf : notBefore now0 = time.Truncate (now0 + 0) time.Second).
  { rewrite Z.add_0_r. reflexivity. }
  split; [|split; [|split; [|split; [|split]]]].
  - intros Hexp. destruct (Z.ltb_spec now (expiresAt a now0)); [lia|reflexivity].
  - intros Hexp Hearly. destruct (Z.ltb_spec now (expiresAt a now0)); [|lia].
    destruct (Z.ltb_spec now (notBefore now0)); [reflexivity|lia].
  - intros Hexp Hfrom. destruct (Z.ltb_spec now (expiresAt a now0)); [|lia].
    destruct (Z.ltb_spec now (notBefore now0)); [lia|reflexivity].
  - intros Hlife Hearly. specialize (Hdates' 0 Hlife). rewrite <- Hnbf in Hdates'.
    destruct (Z.ltb_spec now (expiresAt a now0)); [|lia].
    destruct (Z.ltb_spec now (notBefore now0)); [reflexivity|lia].
  - intros Hlife claims. specialize (Hdates 0 Hlife). rewrite <- Hnbf in Hdates.
    destruct (Z.ltb_spec now (expiresAt a now0)); [|discriminate].
    destruct (Z.ltb_spec now (notBefore now0)); [discriminate|lia].
  - intros Hlife Hnow. specialize (Hdates (- time.Second) Hlife).
    replace (now0 + - time.Second) with (now0 + (-1) * time.Second) in Hdates by lia.
    rewrite Truncate_add_seconds in Hdates.
    change (time.Truncate now0 time.Second) with (notBefore now0) in Hdates.
    destruct (Z.ltb_spec now (expiresAt a now0)); [lia|reflexivity].
Qed.

(** X8.  A token whose header announces RS256, RS384 or RS512 makes
    [VerifyJWTToken] panic when the authenticator has no RSA public key
    (as under the default configuration of the server): the key function
    hands the nil key to the verification.  The JWT middleware then
    panics too, and answers neither 401 nor 403. *)
Theorem VerifyJWTToken_nil_public_key a h (claims : Claims) sig now
    requiredScopes next w ctx :
  jwtPublicKey a = None ->
  let tokenString :=
    jwt.SigningString (jwt.NewWithClaims (jwt.SigningMethodRSA h) claims)
    ++ "." ++ EncodeSegment sig in
  VerifyJWTToken a now tokenString = None
  /\ JWTAuthMiddleware a requiredScopes next now w
       (requestWith (Some ("Bearer " ++ tokenString)) ctx) = None.
Proof.
  intros Hpub tokenString.
  assert (Hverify : VerifyJWTToken a now tokenString = None).
  { unfold VerifyJWTToken, jwt.ParseWithClaims. unfold tokenString.
    rewrite (ParseUnverified_SignedString (jwt.SigningMethodRSA h) claims sig I).
    rewrite DecodeSegment_EncodeSegment. unfold keyFunc. cbn [jwt.Method jwt.Verify].
    rewrite Hpub. reflexivity. }
  split; [exact Hverify|].
  assert (Hextract : ExtractBearerToken (requestWith (Some ("Bearer " ++ tokenString)) ctx)
                     = Ok tokenString).
  { apply ExtractBearerToken_Ok_Split. unfold requestWith, http.Get.
    cbn [http.ReqHeader]. rewrite lookup_singleton_eq.
    apply Split_two. split; [reflexivity|]. split; [reflexivity|].
    apply SignedString_no_space. }
  unfold JWTAuthMiddleware. rewrite Hextract, Hverify. reflexivity.
Qed.

(** X9.  The scope gate is monotone: a request that passes keeps passing
    when the token is granted more scopes, and, on a route that requires
    some scope, when more scopes are accepted for the route. *)
Theorem scopeGate_monotone (required required' granted granted' : list string) :
  ((forall scope, scope ∈ granted -> scope ∈ granted') ->
   scopeGate required granted = true -> scopeGate required granted' = true)
  /\ (required <> [] -> (forall scope, scope ∈ required -> scope ∈ required') ->
      scopeGate required granted = true -> scopeGate required' granted = true).
Proof.
  split.
  - intros Hsub Hpass. destruct required as [|r rest]; [reflexivity|].
    apply (proj2 (scopeGate_policy_aux (r :: rest) granted')); [discriminate|].
    apply (proj2 (scopeGate_policy_aux (r :: rest) granted)) in Hpass; [|discriminate].
    destruct Hpass as [(s & Hin & Hs)|Hadmin]; [left; exists s|right]; auto.
  - intros Hne Hsub Hpass.
    destruct required' as [|r' rest']; [reflexivity|].
    apply (proj2 (scopeGate_policy_aux (r' :: rest') granted)); [discriminate|].
    apply (proj2 (scopeGate_policy_aux required granted)) in Hpass; [|exact Hne].
    destruct Hpass as [(s & Hin & Hs)|Hadmin]; [left; exists s|right]; auto.
Qed.

(** [val] is the value attached last under [key] in [ctx]: the entries
    attached after it are under other keys. *)
Definition attachedLast {V : Type} (ctx : context.Context V) (key : context.Key)
    (val : V) : Prop :=
  exists newer older,
    ctx = (newer ++ (key, val) :: older)%list
    /\ Forall (fun entry => fst entry <> key) newer.

(** [ctx.Value(key)] is the value attached last under [key]. *)
Lemma Value_attachedLast {V : Type} (ctx : context.Context V) key val :
  context.Value ctx key = Some val <-> attachedLast ctx key val.
Proof.
  unfold attachedLast.
  induction ctx as [|[k v] parent IH]; cbn [context.Value].
  - split; [discriminate|]. intros (newer & older & Heq & _).
    destruct newer; discriminate Heq.
  - destruct (decide (k = key)) as [->|Hne].
    + split.
      * intros [= ->]. exists [], parent. split; [reflexivity|constructor].
      * intros (newer & older & Heq & Hnewer). destruct newer as [|[k' v'] newer].
        -- cbn in Heq. congruence.
        -- cbn in Heq. apply Forall_cons in Hnewer as [Hk _]. cbn in Hk. congruence.
    + rewrite IH. split.
      * intros (newer & older & -> & Hnewer). exists ((k, v) :: newer), older.
        split; [reflexivity|]. constructor; [exact Hne|exact Hnewer].
      * intros (newer & older & Heq & Hnewer). destruct newer as [|[k' v'] newer].
        -- cbn in Heq. congruence.
        -- cbn in Heq. apply Forall_cons in Hnewer as [_ Hnewer].
           exists newer, older. split; [congruence|exact Hnewer].
Qed.

(** X10.  The accessors read the value attached last under their key, in
    any context.  Each succeeds with a value exactly when the entry
    attached last under its key (entries under other keys are skipped)
    holds a value of its type; [GetClaims] answers [(nil, true)] exactly
    when that entry holds the nil [*Claims]; an accessor that reports
    absence returns the zero value.  So a value of the accessor's type
    attached under its key is found again, whatever the context held; a
    value of any other type attached under its key hides what was there
    and makes the accessor report absence; a value attached under any
    other key changes nothing; in the empty context all three report
    absence. *)
Theorem context_accessors (ctx : context.Context any) key val :
  (forall userID,
     GetUserID ctx = (userID, true)
     <-> attachedLast ctx UserIDContextKey (any_string userID))
  /\ (forall scopes,
        GetScopes ctx = (scopes, true)
        <-> attachedLast ctx ScopesContextKey (any_strings scopes))
  /\ (forall claims,
        GetClaims ctx = (Some claims, true)
        <-> attachedLast ctx ClaimsContextKey (any_Claims claims))
  /\ (GetClaims ctx = (None, true) <-> attachedLast ctx ClaimsContextKey any_nil_Claims)
  /\ (forall userID, GetUserID ctx = (userID, false) -> userID = "")
  /\ (forall scopes, GetScopes ctx = (scopes, false) -> scopes = [])
  /\ (forall claims, GetClaims ctx = (claims, false) -> claims = None)
  /\ (forall userID,
        GetUserID (context.WithValue ctx UserIDContextKey (any_string userID))
        = (userID, true))
  /\ (forall scopes,
        GetScopes (context.WithValue ctx ScopesContextKey (any_strings scopes))
        = (scopes, true))
  /\ (forall claims,
        GetClaims (context.WithValue ctx ClaimsContextKey (any_Claims claims))
        = (Some claims, true))
  /\ GetClaims (context.WithValue ctx ClaimsContextKey any_nil_Claims) = (None, true)
  /\ ((forall userID, val <> any_string userID) ->
      GetUserID (context.WithValue ctx UserIDContextKey val) = ("", false))
  /\ ((forall scopes, val <> any_strings scopes) ->
      GetScopes (context.WithValue ctx ScopesContextKey val) = ([], false))
  /\ ((forall claims, val <> any_Claims claims) -> val <> any_nil_Claims ->
      GetClaims (context.WithValue ctx ClaimsContextKey val) = (None, false))
  /\ (key <> UserIDContextKey ->
      GetUserID (context.WithValue ctx key val) = GetUserID ctx)
  /\ (key <> ScopesContextKey ->
      GetScopes (context.WithValue ctx key val) = GetScopes ctx)
  /\ (key <> ClaimsContextKey ->
      GetClaims (context.WithValue ctx key val) = GetClaims ctx)
  /\ GetUserID context.Background = ("", false)
  /\ GetScopes context.Background = ([], false)
  /\ GetClaims context.Background = (None, false).
Proof.
  split; [|split; [|split; [|split]]].
  - intros userID. rewrite <- Value_attachedLast. unfold GetUserID.
    destruct (context.Value ctx UserIDContextKey) as [[s|l|c| |t x]|];
      split; intros Heq; congruence.
  - intros scopes. rewrite <- Value_attachedLast. unfold GetScopes.
    destruct (context.Value ctx ScopesContextKey) as [[s|l|c| |t x]|];
      split; intros Heq; congruence.
  - intros claims. rewrite <- Value_attachedLast. unfold GetClaims.
    destruct (context.Value ctx ClaimsContextKey) as [[s|l|c| |t x]|];
      split; intros Heq; congruence.
  - rewrite <- Value_attachedLast. unfold GetClaims.
    destruct (context.Value ctx ClaimsContextKey) as [[s|l|c| |t x]|];
      split; intros Heq; congruence.
  - split; [|split; [|split]].
    + intros userID. unfold GetUserID.
      destruct (context.Value ctx UserIDContextKey) as [[s|l|c| |t x]|]; congruence.
    + intros scopes. unfold GetScopes.
      destruct (context.Value ctx ScopesContextKey) as [[s|l|c| |t x]|]; congruence.
    + intros claims. unfold GetClaims.
      destruct (context.Value ctx ClaimsContextKey) as [[s|l|c| |t x]|]; congruence.
    + do 4 (split; [reflexivity|]).
      split; [|split; [|split; [|split; [|split; [|split]]]]].
      * intros Hval. destruct val as [s|l|c| |t x]; try reflexivity.
        destruct (Hval s eq_refl).
      * intros Hval. destruct val as [s|l|c| |t x]; try reflexivity.
        destruct (Hval l eq_refl).
      * intros Hval Hnil. destruct val as [s|l|c| |t x]; try reflexivity.
        -- destruct (Hval c eq_refl).
        -- destruct (Hnil eq_refl).
      * intros Hne. unfold GetUserID, context.WithValue. cbn [context.Value].
        destruct (decide (key = UserIDContextKey)); [contradiction|reflexivity].
      * intros Hne. unfold GetScopes, context.WithValue. cbn [context.Value].
        destruct (decide (key = ScopesContextKey)); [contradiction|reflexivity].
      * intros Hne. unfold GetClaims, context.WithValue. cbn [context.Value].
        destruct (decide (key = ClaimsContextKey)); [contradiction|reflexivity].
      * repeat split; reflexivity.
Qed.


(** What the handler does find: a string attached under the plain key. *)
Lemma UserProfileHandler_plain_key w (r : http.Request any) userID :
  context.Value (http.Ctx r) handlers.userIDKey = Some (any_string userID) ->
  handlers.UserProfileHandler w r
  = Some (handlers.RespondJSON w 200
            {| models.ID := userID;
               models.Username := "user" ++ userID;
               models.Email := "user" ++ userID ++ "@example.com";
               models.Roles := ["user"];
               models.Scopes := ["read"; "write"] |}).
Proof. intros Hval. unfold handlers.UserProfileHandler. rewrite Hval. reflexivity. Qed.

Lemma StdEncodeToString_no_space s :
  gostrings.Contains (StdEncodeToString s) " " = false.
Proof.
  apply (allIn_Contains stdAlphabet); [apply StdEncodeToString_alphabet|reflexivity].
Qed.

Lemma ExtractBasicAuth_Ok (r : http.Request any) username password :
  ExtractBasicAuth r = Ok {| Username := username; Password := password |} <->
  exists p1,
    gostrings.Split (http.Get (http.ReqHeader r) "Authorization") " " = ["Basic"; p1]
    /\ StdDecodeString p1 = Some (username ++ ":" ++ password)
    /\ gostrings.Contains username ":" = false.
Proof.
  unfold ExtractBasicAuth.
  set (authHeader := http.Get (http.ReqHeader r) "Authorization").
  split.
  - destruct (String.eqb_spec authHeader "") as [_|Hne]; [discriminate|].
    destruct (gostrings.Split authHeader " ") as [|p0 [|p1 [|p2 ps]]]; try discriminate.
    destruct (String.eqb_spec p0 "Basic") as [->|_]; [|discriminate]. cbn [negb].
    destruct (StdDecodeString p1) as [payload|] eqn:Hdecode; [|discriminate].
    destruct (SplitN2 payload ":") as [|u [|p [|x xs]]] eqn:Hpair; try discriminate.
    intros [= -> ->]. apply SplitN2_two in Hpair as [-> Hu].
    exists p1. auto.
  - intros (p1 & Hsplit & Hdecode & Hu).
    destruct (String.eqb_spec authHeader "") as [Hempty|_].
    { rewrite Hempty in Hsplit. discriminate Hsplit. }
    rewrite Hsplit. cbn [String.eqb negb]. rewrite Hdecode.
    change (":" ++ password) with (String ":" password).
    rewrite (SplitN2_cut _ _ _ Hu). reflexivity.
Qed.

(** X12.  [ExtractBasicAuth] fails with [ErrMissingToken] exactly when the
    header is absent or empty, and with [ErrInvalidToken] in every other
    case of failure.  It returns a name and a password exactly when the
    header is [Basic], one space and a base64 text that decodes to the
    name, a colon and the password, where the name has no colon and the
    password may have some: the payload is cut at its first colon.  So
    the credentials a client encodes that way come back as they were. *)
Theorem ExtractBasicAuth_spec (r : http.Request any) :
  let authHeader := http.Get (http.ReqHeader r) "Authorization" in
  (ExtractBasicAuth r = Err ErrMissingToken <-> authHeader = "")
  /\ (forall e, ExtractBasicAuth r = Err e -> e = ErrMissingToken \/ e = ErrInvalidToken)
  /\ (forall username password,
        ExtractBasicAuth r = Ok {| Username := username; Password := password |} <->
        exists p1,
          gostrings.Split authHeader " " = ["Basic"; p1]
          /\ StdDecodeString p1 = Some (username ++ ":" ++ password)
          /\ gostrings.Contains username ":" = false)
  /\ (forall username password,
        gostrings.Contains username ":" = false ->
        authHeader = "Basic " ++ StdEncodeToString (username ++ ":" ++ password) ->
        ExtractBasicAuth r = Ok {| Username := username; Password := password |}).
Proof.
  intros authHeader. split; [|split; [|split]].
  - unfold ExtractBasicAuth. fold authHeader.
    destruct (String.eqb_spec authHeader "") as [Hempty|Hne]; [split; auto|].
    split; [|contradiction].
    destruct (gostrings.Split authHeader " ") as [|p0 [|p1 [|p2 ps]]]; try discriminate.
    destruct (negb (String.eqb p0 "Basic")); [discriminate|].
    destruct (StdDecodeString p1) as [payload|]; [|discriminate].
    destruct (SplitN2 payload ":") as [|u [|p [|x xs]]]; discriminate.
  - intros e. unfold ExtractBasicAuth. fold authHeader.
    destruct (String.eqb authHeader ""); [intros [= <-]; auto|].
    destruct (gostrings.Split authHeader " ") as [|p0 [|p1 [|p2 ps]]];
      try (intros [= <-]; auto).
    destruct (negb (String.eqb p0 "Basic")); [intros [= <-]; auto|].
    destruct (StdDecodeString p1) as [payload|]; [|intros [= <-]; auto].
    destruct (SplitN2 payload ":") as [|u [|p [|x xs]]];
      try (intros [= <-]; auto); discriminate.
  - intros username password. apply ExtractBasicAuth_Ok.
  - intros username password Hu Hheader. apply ExtractBasicAuth_Ok. fold authHeader.
    exists (StdEncodeToString (username ++ ":" ++ password)).
    split; [|split; [apply StdDecodeString_EncodeToString|exact Hu]].
    apply Split_two. split; [exact Hheader|]. split; [reflexivity|].
    apply StdEncodeToString_no_space.
Qed.

(** X13.  No header satisfies both extractions: a header that
    [ExtractBearerToken] accepts is refused by [ExtractBasicAuth] with
    [ErrInvalidToken], and a header that [ExtractBasicAuth] accepts is
    refused by [ExtractBearerToken] with [ErrInvalidToken]; both fail
    with [ErrMissingToken] on the same requests. *)
Theorem ExtractBasicAuth_ExtractBearerToken (r : http.Request any) :
  (forall token, ExtractBearerToken r = Ok token ->
     ExtractBasicAuth r = Err ErrInvalidToken)
  /\ (forall credentials, ExtractBasicAuth r = Ok credentials ->
        ExtractBearerToken r = Err ErrInvalidToken)
  /\ (ExtractBearerToken r = Err ErrMissingToken <->
      ExtractBasicAuth r = Err ErrMissingToken).
Proof.
  unfold ExtractBearerToken, ExtractBasicAuth.
  set (authHeader := http.Get (http.ReqHeader r) "Authorization").
  destruct (String.eqb authHeader ""); [repeat split; discriminate|].
  destruct (gostrings.Split authHeader " ") as [|p0 [|p1 [|p2 ps]]];
    try (repeat split; discriminate).
  destruct (String.eqb_spec p0 "Bearer") as [->|Hbearer]; cbn [negb].
  - repeat split; try discriminate; intros; reflexivity.
  - destruct (negb (String.eqb p0 "Basic")); [repeat split; discriminate|].
    destruct (StdDecodeString p1) as [payload|]; [|repeat split; discriminate].
    destruct (SplitN2 payload ":") as [|u [|p [|x xs]]]; repeat split; discriminate.
Qed.

End MoreProperties.

(** * The rest at work on concrete requests *)

Definition readClaims : Claims :=
  normClaims (newClaims defaultAuthenticator issuedAt "jti-1" "u1" ["user"] ["read"]).

Lemma GenerateJWTToken_readToken :
  GenerateJWTToken defaultAuthenticator issuedAt "jti-1" "u1" ["user"] ["read"]
  = Some (Ok readToken).
Proof. vm_compute. reflexivity. Qed.

Lemma VerifyJWTToken_sound_witness :
  VerifyJWTToken defaultAuthenticator (issuedAt + time.Hour) readToken = Some (Ok readClaims)
  /\ (exists method,
        signatureChecked defaultAuthenticator readToken readClaims method
        /\ (exists h, method = jwt.SigningMethodHMAC h \/ method = jwt.SigningMethodRSA h))
  /\ (forall exp, jwt.ExpiresAt (RegisteredClaims readClaims) = Some exp ->
        issuedAt + time.Hour < jwt.Time exp).
Proof.
  assert (Hok : VerifyJWTToken defaultAuthenticator (issuedAt + time.Hour) readToken
                = Some (Ok readClaims)) by (vm_compute; reflexivity).
  destruct (VerifyJWTToken_sound defaultAuthenticator (issuedAt + time.Hour) readToken
              readClaims Hok) as (Hsig & Hexp & _).
  split; [exact Hok|]. split; [exact Hsig|exact Hexp].
Defined.

Lemma VerifyJWTToken_expired_signed_witness :
  VerifyJWTToken defaultAuthenticator (issuedAt + 48 * time.Hour) readToken
  = Some (Err ErrExpiredToken)
  /\ exists claims method exp,
       signatureChecked defaultAuthenticator readToken claims method
       /\ jwt.ExpiresAt (RegisteredClaims claims) = Some exp
       /\ jwt.Time exp <= issuedAt + 48 * time.Hour.
Proof.
  assert (Hexp : VerifyJWTToken defaultAuthenticator (issuedAt + 48 * time.Hour) readToken
                 = Some (Err ErrExpiredToken)) by (vm_compute; reflexivity).
  split; [exact Hexp|].
  exact (VerifyJWTToken_expired_signed defaultAuthenticator (issuedAt + 48 * time.Hour)
           readToken Hexp).
Defined.

Lemma VerifyJWTToken_malformed_witness :
  VerifyJWTToken defaultAuthenticator issuedAt "" = Some (Err ErrInvalidToken)
  /\ VerifyJWTToken defaultAuthenticator issuedAt "a.b" = Some (Err ErrInvalidToken)
  /\ VerifyJWTToken defaultAuthenticator issuedAt "a.b.c.d" = Some (Err ErrInvalidToken).
Proof.
  split; [|split].
  - apply (proj1 (VerifyJWTToken_malformed defaultAuthenticator issuedAt "")).
    intros p0 p1 p2. vm_compute. discriminate.
  - apply (proj1 (VerifyJWTToken_malformed defaultAuthenticator issuedAt "a.b")).
    intros p0 p1 p2. vm_compute. discriminate.
  - apply (proj1 (VerifyJWTToken_malformed defaultAuthenticator issuedAt "a.b.c.d")).
    intros p0 p1 p2. vm_compute. discriminate.
Defined.

(** A configuration for RS256 that names no key and no secret. *)
Definition rs256Config : AuthConfig :=
  {| JWTSecret := ""; JWTPrivateKey := None; JWTPublicKey := None;
     JWTSigningMethod := "RS256";
     JWTExpirationTime := time.Hour;
     JWTIssuer := "api-template";
     OAuth2ClientID := ""; OAuth2ClientSecret := ""; OAuth2RedirectURL := "";
     OAuth2AuthURL := ""; OAuth2TokenURL := ""; OAuth2Scopes := [] |}.

Lemma GenerateJWTToken_supported_witness :
  (exists tokenString,
     GenerateJWTToken defaultAuthenticator issuedAt "jti-1" "u1" ["user"] ["read"]
     = Some (Ok tokenString))
  /\ GenerateJWTToken (authenticatorOf rs256Config) issuedAt "jti-1" "u1" ["user"] ["read"]
     = None.
Proof.
  destruct (GenerateJWTToken_supported defaultConfig defaultAuthenticator issuedAt
              "jti-1" "u1" ["user"] ["read"] eq_refl) as (_ & Htoken & _).
  destruct (GenerateJWTToken_supported rs256Config (authenticatorOf rs256Config) issuedAt
              "jti-1" "u1" ["user"] ["read"] eq_refl) as (_ & _ & Hpanic).
  split.
  - apply Htoken. intros Hin.
    repeat (apply elem_of_cons in Hin as [Heq|Hin]; [discriminate Heq|]). inversion Hin.
  - apply Hpanic; [constructor|reflexivity].
Defined.

(** An authenticator configured for RS256, without keys and without a
    secret, accepts a token signed with HS256 under the empty secret. *)
Lemma VerifyJWTToken_any_method_witness :
  jwtSigningMethod (authenticatorOf rs256Config) = jwt.SigningMethodRS256
  /\ exists tokenString,
       GenerateJWTToken
         (withSigningMethod (authenticatorOf rs256Config) jwt.SigningMethodHS256)
         issuedAt "forged" "admin" ["admin"] ["admin"] = Some (Ok tokenString)
       /\ VerifyJWTToken (authenticatorOf rs256Config) (issuedAt + 1) tokenString
          = Some (Ok (normClaims (newClaims (authenticatorOf rs256Config) issuedAt
                                    "forged" "admin" ["admin"] ["admin"]))).
Proof.
  split; [reflexivity|].
  apply (VerifyJWTToken_any_method (authenticatorOf rs256Config) jwt.SigningMethodHS256
           crypto.SHA256 issuedAt "forged" "admin" ["admin"] ["admin"] (issuedAt + 1)).
  - vm_compute. discriminate.
  - vm_compute. reflexivity.
Defined.

(** A configuration whose lifetime is minus one hour, and a token issued
    under it. *)
Definition negativeConfig : AuthConfig :=
  {| JWTSecret := JWTSecret defaultConfig;
     JWTPrivateKey := None; JWTPublicKey := None;
     JWTSigningMethod := "HS256";
     JWTExpirationTime := - time.Hour;
     JWTIssuer := JWTIssuer defaultConfig;
     OAuth2ClientID := ""; OAuth2ClientSecret := ""; OAuth2RedirectURL := "";
     OAuth2AuthURL := ""; OAuth2TokenURL := ""; OAuth2Scopes := [] |}.

Definition staleToken : string :=
  tokenOf (GenerateJWTToken (authenticatorOf negativeConfig) issuedAt "jti-1" "u1"
             ["user"] ["read"]).

Lemma keyPair_negativeConfig : keyPair (authenticatorOf negativeConfig).
Proof. intros HRS. vm_compute in HRS. discriminate HRS. Qed.

Lemma GenerateJWTToken_staleToken :
  GenerateJWTToken (authenticatorOf negativeConfig) issuedAt "jti-1" "u1" ["user"] ["read"]
  = Some (Ok staleToken).
Proof. vm_compute. reflexivity. Qed.

(** The token of the default configuration one nanosecond before it was
    issued, when it was issued and a day later; and the token of the
    lifetime of minus one hour one nanosecond before it was issued. *)
Lemma VerifyJWTToken_issued_witness :
  VerifyJWTToken defaultAuthenticator (issuedAt - 1) readToken = Some (Err ErrInvalidToken)
  /\ VerifyJWTToken defaultAuthenticator issuedAt readToken = Some (Ok readClaims)
  /\ VerifyJWTToken defaultAuthenticator (issuedAt + 24 * time.Hour) readToken
     = Some (Err ErrExpiredToken)
  /\ VerifyJWTToken (authenticatorOf negativeConfig) (issuedAt - 1) staleToken
     = Some (Err ErrExpiredToken).
Proof.
  destruct (VerifyJWTToken_issued defaultAuthenticator issuedAt "jti-1" "u1" ["user"] ["read"]
              readToken (issuedAt - 1) keyPair_defaultAuthenticator
              GenerateJWTToken_readToken) as (_ & _ & _ & Hearly & _).
  destruct (VerifyJWTToken_issued defaultAuthenticator issuedAt "jti-1" "u1" ["user"] ["read"]
              readToken issuedAt keyPair_defaultAuthenticator
              GenerateJWTToken_readToken) as (_ & _ & Hvalid & _).
  destruct (VerifyJWTToken_issued defaultAuthenticator issuedAt "jti-1" "u1" ["user"] ["read"]
              readToken (issuedAt + 24 * time.Hour) keyPair_defaultAuthenticator
              GenerateJWTToken_readToken) as (Hlate & _).
  destruct (VerifyJWTToken_issued (authenticatorOf negativeConfig) issuedAt "jti-1" "u1"
              ["user"] ["read"] staleToken (issuedAt - 1) keyPair_negativeConfig
              GenerateJWTToken_staleToken) as (_ & _ & _ & _ & _ & Hstale).
  split; [apply Hearly; [vm_compute; discriminate|vm_compute; reflexivity]|].
  split; [apply Hvalid; [vm_compute; reflexivity|vm_compute; discriminate]|].
  split; [apply Hlate; vm_compute; discriminate|].
  apply Hstale; vm_compute; discriminate.
Defined.

Lemma VerifyJWTToken_nil_public_key_witness :
  let tokenString :=
    jwt.SigningString (jwt.NewWithClaims jwt.SigningMethodRS256 readClaims)
    ++ "." ++ EncodeSegment "anything" in
  VerifyJWTToken defaultAuthenticator issuedAt tokenString = None
  /\ JWTAuthMiddleware defaultAuthenticator ["read"] echoUser issuedAt http.NewRecorder
       (requestWith (Some ("Bearer " ++ tokenString)) []) = None.
Proof.
  exact (VerifyJWTToken_nil_public_key defaultAuthenticator crypto.SHA256 readClaims
           "anything" issuedAt ["read"] echoUser http.NewRecorder [] eq_refl).
Defined.


Lemma ExtractBasicAuth_spec_witness :
  ExtractBasicAuth
    (requestWith (Some ("Basic " ++ StdEncodeToString ("alice" ++ ":" ++ "p:w"))) [])
  = Ok {| Username := "alice"; Password := "p:w" |}
  /\ (ExtractBasicAuth (requestWith None []) = Err ErrMissingToken).
Proof.
  destruct (ExtractBasicAuth_spec
              (requestWith (Some ("Basic " ++ StdEncodeToString ("alice" ++ ":" ++ "p:w"))) []))
    as (_ & _ & _ & Hround).
  destruct (ExtractBasicAuth_spec (requestWith None [])) as (Hmissing & _).
  split; [apply Hround; reflexivity|]. apply Hmissing. reflexivity.
Defined.

Lemma JWTAuthMiddleware_issued_witness :
  exists r',
    JWTAuthMiddleware defaultAuthenticator ["read"] echoUser (issuedAt + time.Hour)
      http.NewRecorder (requestWith (Some ("Bearer " ++ readToken)) [])
    = echoUser http.NewRecorder r'
    /\ GetUserID (http.Ctx r') = ("u1", true)
    /\ GetScopes (http.Ctx r') = (["read"], true).
Proof.
  apply (JWTAuthMiddleware_issued defaultAuthenticator ["read"] echoUser http.NewRecorder []
           issuedAt "jti-1" "u1" ["user"] ["read"] readToken (issuedAt + time.Hour) "read").
  - exact keyPair_defaultAuthenticator.
  - reflexivity.
  - repeat constructor.
  - constructor.
  - constructor.
  - vm_compute. discriminate.
  - vm_compute. reflexivity.
  - exact GenerateJWTToken_readToken.
Defined.

Section TokenIdentity.
Context `{Crypto} `{Base64} `{!JSON Claims normClaims} `{!JSON jwt.Header jwt.normHeader}.

(** X15.  A token determines what it was issued for: when two calls of
    [GenerateJWTToken], on any two authenticators, return the same
    string, they signed with the same method the same claims as JSON
    carries them; so two tokens whose identifiers are valid UTF-8 and
    differ are different strings, and so are two tokens for different
    users. *)
Theorem GenerateJWTToken_injective a1 now1 id1 userID1 roles1 scopes1
    a2 now2 id2 userID2 roles2 scopes2 tokenString :
  GenerateJWTToken a1 now1 id1 userID1 roles1 scopes1 = Some (Ok tokenString) ->
  GenerateJWTToken a2 now2 id2 userID2 roles2 scopes2 = Some (Ok tokenString) ->
  jwtSigningMethod a1 = jwtSigningMethod a2
  /\ normClaims (newClaims a1 now1 id1 userID1 roles1 scopes1)
     = normClaims (newClaims a2 now2 id2 userID2 roles2 scopes2)
  /\ (json.Valid id1 -> json.Valid id2 -> id1 = id2)
  /\ (json.Valid userID1 -> json.Valid userID2 -> userID1 = userID2).
Proof.
  intros Hgen1 Hgen2.
  destruct (GenerateJWTToken_Ok _ _ _ _ _ _ _ Hgen1) as (sig1 & Heq1 & Hsig1).
  destruct (GenerateJWTToken_Ok _ _ _ _ _ _ _ Hgen2) as (sig2 & Heq2 & Hsig2).
  assert (Hm1 : signs (jwtSigningMethod a1))
    by (destruct Hsig1 as [(h & -> & _)|(h & priv & -> & _)]; exact I).
  assert (Hm2 : signs (jwtSigningMethod a2))
    by (destruct Hsig2 as [(h & -> & _)|(h & priv & -> & _)]; exact I).
  pose proof (ParseUnverified_SignedString _ (newClaims a1 now1 id1 userID1 roles1 scopes1)
                sig1 Hm1) as Hparse1.
  pose proof (ParseUnverified_SignedString _ (newClaims a2 now2 id2 userID2 roles2 scopes2)
                sig2 Hm2) as Hparse2.
  cbv zeta in Hparse1, Hparse2. rewrite <- Heq1 in Hparse1. rewrite <- Heq2 in Hparse2.
  rewrite Hparse1 in Hparse2.
  assert (Hmethod : jwtSigningMethod a1 = jwtSigningMethod a2).
  { exact (f_equal (fun r => match r with
                             | jwt.ok (t, _) => jwt.Method t
                             | jwt.fail _ => jwtSigningMethod a1
                             end) Hparse2). }
  assert (Hclaims : normClaims (newClaims a1 now1 id1 userID1 roles1 scopes1)
                    = normClaims (newClaims a2 now2 id2 userID2 roles2 scopes2)).
  { exact (f_equal (fun r => match r with
                             | jwt.ok (t, _) => jwt.TokenClaims t
                             | jwt.fail _ =>
                                 normClaims (newClaims a1 now1 id1 userID1 roles1 scopes1)
                             end) Hparse2). }
  split; [exact Hmethod|]. split; [exact Hclaims|].
  split.
  - intros Hv1 Hv2. apply (f_equal (fun c => jwt.ID (RegisteredClaims c))) in Hclaims.
    cbn [normClaims newClaims RegisteredClaims normRegisteredClaims jwt.ID] in Hclaims.
    rewrite Hv1, Hv2 in Hclaims. exact Hclaims.
  - intros Hv1 Hv2. apply (f_equal UserID) in Hclaims.
    cbn [normClaims newClaims UserID] in Hclaims.
    rewrite Hv1, Hv2 in Hclaims. exact Hclaims.
Qed.

End TokenIdentity.

Lemma GenerateJWTToken_injective_witness :
  bool_decide (readToken = writeToken) = false.
Proof.
  apply bool_decide_eq_false. intros Heq.
  assert (Hgen2 : GenerateJWTToken defaultAuthenticator issuedAt "jti-2" "u2" ["user"] ["write"]
                  = Some (Ok readToken)) by (rewrite Heq; vm_compute; reflexivity).
  destruct (GenerateJWTToken_injective _ _ _ _ _ _ _ _ _ _ _ _ _
              GenerateJWTToken_readToken Hgen2) as (_ & _ & Hid & _).
  discriminate (Hid eq_refl eq_refl).
Defined.
